(** * API gateway: service registry, round-robin balancer and proxy router

    A shallow embedding of [api-gateway/utils/loadbalancer.js] and
    [api-gateway/routes/index.js].  JavaScript objects that the handlers
    mutate in place ([registry], a service record, an instance) are modelled
    by explicit state passing: every operation takes the registry and returns
    the registry it leaves behind, together with what it returned, threw or
    sent to the client. *)

From stdpp Require Import base option numbers list strings gmap.

Local Open Scope Z_scope.
Local Set Warnings "-register-all".

(** ** JavaScript values *)

(** The JSON values that travel in request and response bodies.  [JUndefined]
    stands for an absent property.  Numbers are the integers (status codes,
    ports, indices); objects are association lists in property order. *)
Inductive json : Type :=
| JUndefined
| JNull
| JBool (b : bool)
| JNum (n : Z)
| JStr (s : string)
| JArr (items : list json)
| JObj (fields : list (string * json)).

(** JavaScript truthiness, as used by [instance.enabled ? .. : ..], by
    [Array.prototype.some] and by [||]. *)
Definition truthy (v : json) : bool :=
  match v with
  | JUndefined | JNull => false
  | JBool b => b
  | JNum n => negb (n =? 0)
  | JStr s => negb (String.eqb s "")
  | JArr _ | JObj _ => true
  end.

(** The errors the modelled code can raise. *)
Inductive JsError : Type :=
| Error (message : string)
| TypeError (message : string)
| RangeError (message : string)
| ReferenceError (message : string).

(** How the evaluation of a JavaScript expression ends. *)
Inductive Completion (A : Type) : Type :=
| Return (a : A)
| Throw (e : JsError).
Arguments Return {A} a.
Arguments Throw {A} e.

(** ** Data model (the shape of [registry.json]) *)

(** An instance is the registration body with its derived [url]:
    [instances.push({ ...registrationInfo })].  [url] is [None] when the
    property is absent; [enabled] is whatever value the body carried. *)
Record Instance : Type := mkInstance {
  apiName : string;
  protocol : string;
  host : string;
  port : string;
  url : option string;
  enabled : json
}.

Record Service : Type := mkService {
  index : Z;
  instances : list Instance;
  loadBalanceStrategy : option string
}.

(** [registry.services]: the services by name (the own properties of the
    object; what the object inherits is accounted for in the routes). *)
Record Registry : Type := mkRegistry {
  services : gmap string Service
}.

Definition set_index (service : Service) (i : Z) : Service :=
  {| index := i;
     instances := instances service;
     loadBalanceStrategy := loadBalanceStrategy service |}.

Definition set_instances (service : Service) (l : list Instance) : Service :=
  {| index := index service;
     instances := l;
     loadBalanceStrategy := loadBalanceStrategy service |}.

Definition set_loadBalanceStrategy (service : Service) (s : string) : Service :=
  {| index := index service;
     instances := instances service;
     loadBalanceStrategy := Some s |}.

Definition set_enabled (instance : Instance) (v : json) : Instance :=
  {| apiName := apiName instance;
     protocol := protocol instance;
     host := host instance;
     port := port instance;
     url := url instance;
     enabled := v |}.

Definition set_url (instance : Instance) (u : string) : Instance :=
  {| apiName := apiName instance;
     protocol := protocol instance;
     host := host instance;
     port := port instance;
     url := Some u;
     enabled := enabled instance |}.

Definition set_service (registry : Registry) (name : string) (service : Service)
  : Registry :=
  {| services := <[name := service]> (services registry) |}.

(** [array[i]] for a number [i]: [undefined] (here [None]) outside
    [0 .. length - 1], negative indices included. *)
Definition at_index {A : Type} (l : list A) (i : Z) : option A :=
  if i <? 0 then None else l !! Z.to_nat i.

Definition len {A : Type} (l : list A) : Z := Z.of_nat (length l).

(** ** loadbalancer.js *)

Module loadbalancer.

(** A strategy receives the service record, may update its cursor, and
    returns an index or throws.  [None] is reserved for a recursion that has
    not come back within the given depth. *)
Definition Strategy : Type := Service -> option (Completion Z * Service).

(** [instances.some(instance => instance.enabled)] *)
Definition some_enabled (l : list Instance) : bool :=
  existsb (fun instance => truthy (enabled instance)) l.

(** [service.instances[index].enabled ? index : loadBalanceStrategy(service)].
    Reading [.enabled] of [undefined] raises a [TypeError]. *)
Definition isEnabled (service : Service) (index : Z)
    (loadBalanceStrategy : Strategy) : option (Completion Z * Service) :=
  match at_index (instances service) index with
  | None =>
      Some (Throw (TypeError
        "Cannot read properties of undefined (reading 'enabled')"), service)
  | Some instance =>
      if truthy (enabled instance) then Some (Return index, service)
      else loadBalanceStrategy service
  end.

(** [++service.index >= service.instances.length ? 0 : service.index] *)
Definition advance (service : Service) : Z :=
  if index service + 1 >=? len (instances service) then 0
  else index service + 1.

(** [ROUND_ROBIN] calls [isEnabled], which calls [ROUND_ROBIN] back;
    [fuel] bounds the number of nested [ROUND_ROBIN] calls. *)
Fixpoint ROUND_ROBIN_fuel (fuel : nat) (service : Service)
  : option (Completion Z * Service) :=
  match fuel with
  | O => None
  | S fuel' =>
      let newIndex := advance service in
      let service := set_index service newIndex in
      if negb (some_enabled (instances service)) then
        Some (Throw (Error "No enabled instances available"), service)
      else isEnabled service newIndex (ROUND_ROBIN_fuel fuel')
  end.

(** One call per instance is always enough (see [ROUND_ROBIN_fuel_enough]
    below), so the stack-overflow default is never taken. *)
Definition ROUND_ROBIN (service : Service) : Completion Z * Service :=
  default (Throw (RangeError "Maximum call stack size exceeded"), service)
          (ROUND_ROBIN_fuel (S (length (instances service))) service).

End loadbalancer.

(** ** routes/index.js *)

(** [Array.prototype.findIndex]: position of the first element satisfying
    [p], [-1] when there is none. *)
Fixpoint findIndex {A : Type} (p : A -> bool) (l : list A) : Z :=
  match l with
  | [] => -1
  | x :: rest =>
      if p x then 0
      else let r := findIndex p rest in if r =? -1 then -1 else r + 1
  end.

(** [array.splice(start, 1)]: a negative [start] counts from the end, and a
    [start] at or past the end removes nothing. *)
Definition splice1 {A : Type} (l : list A) (start : Z) : list A :=
  let actual :=
    if start <? 0 then Z.max (len l + start) 0 else Z.min start (len l) in
  delete (Z.to_nat actual) l.

(** [a === b] on two [url] properties (strings, or [undefined]). *)
Definition url_eq (a b : option string) : bool := bool_decide (a = b).

(** A [url] interpolated in a template literal. *)
Definition show (u : option string) : string := default "undefined" u.

(** [data.message]: a [TypeError] on [null] and [undefined], the property of
    an object (keys are unique), [undefined] on every other value. *)
Definition message_of (data : json) : Completion json :=
  match data with
  | JUndefined =>
      Throw (TypeError "Cannot read properties of undefined (reading 'message')")
  | JNull =>
      Throw (TypeError "Cannot read properties of null (reading 'message')")
  | JObj fields =>
      Return (default JUndefined
                (snd <$> List.find (fun kv => String.eqb (fst kv) "message") fields))
  | _ => Return JUndefined
  end.

(** The line break written [\n] in the template literals. *)
Definition newline : string := String (Ascii.ascii_of_nat 10) "".

(** [a || b] *)
Definition js_or (a b : json) : json := if truthy a then a else b.

(** What a handler leaves for the client: a response it sent through [res],
    or an exception that left the handler with nothing sent. *)
Inductive Outcome : Type :=
| Responded (status : Z) (body : json)
| Uncaught (e : JsError).

Definition message_body (m : string) : json := JObj [("message", JStr m)].

(** Body of [POST /enableOrDisable/:apiName]. *)
Record EnableBody : Type := mkEnableBody {
  body_url : option string;
  body_enabled : json
}.

(** The inbound request of the proxy route [/:apiName/*]; [path] is
    [req.params[0]]. *)
Record Request : Type := mkRequest {
  method : string;
  req_apiName : string;
  path : string;
  headers : json;
  body : json;
  query : json
}.

(** The configuration handed to [axios]. *)
Record AxiosConfig : Type := mkAxiosConfig {
  ax_method : string;
  ax_url : string;
  ax_headers : json;
  ax_data : json;
  ax_params : json
}.

(** The ways the awaited [axios] call ends, as the handler tells them apart:
    fulfilled with a response; rejected with [error.response] set (the
    downstream answered with a status axios rejects); rejected with only
    [error.request] set; rejected with neither. *)
Inductive AxiosResult : Type :=
| Fulfilled (status : Z) (data : json)
| RejectedResponse (status : Z) (data : json)
| RejectedRequest (message : string)
| RejectedSetup (message : string).

Module router.

(** The property names every object inherits.  At such a name that is no
    service, [registry.services[name]] is the inherited value, which is
    truthy and has no [instances]; at any other unknown name it is
    [undefined]. *)
Definition inherited_names : list string :=
  ["constructor"; "__proto__"; "hasOwnProperty"; "isPrototypeOf";
   "propertyIsEnumerable"; "toLocaleString"; "toString"; "valueOf";
   "__defineGetter__"; "__defineSetter__"; "__lookupGetter__";
   "__lookupSetter__"].

Definition inherited (name : string) : bool :=
  bool_decide (name ∈ inherited_names).

(** What [registry.services[name].instances.method] throws when no service
    has the name. *)
Definition no_instances (name method : string) : JsError :=
  if inherited name then
    TypeError ("Cannot read properties of undefined (reading '" +:+ method +:+ "')")
  else
    TypeError "Cannot read properties of undefined (reading 'instances')".

(** [apiAlreadyExists]: is there an instance of the named service whose
    [url] is the one in [registrationInfo]?  An unknown service name makes
    [registry.services[..].instances.forEach] throw. *)
Definition apiAlreadyExists (registry : Registry) (registrationInfo : Instance)
  : Completion bool :=
  match services registry !! apiName registrationInfo with
  | None => Throw (no_instances (apiName registrationInfo) "forEach")
  | Some service =>
      Return (existsb (fun instance => url_eq (url instance) (url registrationInfo))
                      (instances service))
  end.

(** [fs.writeFile(.., callback)] after a mutation: the callback sends the
    response, [failure] when it is called with an error and [success]
    otherwise.  [writeError] is the text of that error. *)
Definition persist (writeError : option string)
    (failure : string -> Outcome) (success : Outcome) : Outcome :=
  match writeError with
  | Some error => failure error
  | None => success
  end.

(** [router.post('/enableOrDisable/:apiName')] *)
Definition enableOrDisable (apiName : string) (requestBody : EnableBody)
    (writeError : option string) (registry : Registry) : Outcome * Registry :=
  match services registry !! apiName with
  | None => (Uncaught (no_instances apiName "findIndex"), registry)
  | Some service =>
      let instances0 := instances service in
      let index :=
        findIndex (fun s => url_eq (url s) (body_url requestBody)) instances0 in
      if index =? -1 then
        (Responded 404
           (JObj [("status", JStr "error");
                  ("message", JStr ("Could not find '" +:+ show (body_url requestBody)
                                    +:+ "' for service '" +:+ apiName +:+ "'"))]),
         registry)
      else
        let instances1 :=
          alter (fun instance => set_enabled instance (body_enabled requestBody))
                (Z.to_nat index) instances0 in
        let registry := set_service registry apiName (set_instances service instances1) in
        (persist writeError
           (fun error =>
              Responded 500 (message_body
                ("Could not enable/disable '" +:+ show (body_url requestBody)
                 +:+ "' for service '" +:+ apiName +:+ "'" +:+ newline +:+ error)))
           (Responded 200 (message_body
                ("Successfully enable/disable '" +:+ show (body_url requestBody)
                 +:+ "' for service '" +:+ apiName +:+ "'"))),
         registry)
  end.

(** [loadbalancer[service.loadBalanceStrategy](service)].  [ROUND_ROBIN] is
    the one strategy; every other property name ends in a [TypeError]
    (not a function, or a call that yields no instance). *)
Definition select (strategy : string) (service : Service)
  : Completion Z * Service :=
  if String.eqb strategy "ROUND_ROBIN" then loadbalancer.ROUND_ROBIN service
  else (Throw (TypeError "loadbalancer[service.loadBalanceStrategy] is not a function"),
        service).

(** The [try]/[catch] around the awaited [axios] call ([targetUrl] is only
    logged). *)
Definition relay (targetUrl : option string) (result : AxiosResult) : Outcome :=
  match result with
  | Fulfilled status data => Responded status data
  | RejectedResponse status data =>
      match message_of data with
      | Throw e => Uncaught e
      | Return m =>
          Responded status
            (JObj [("message", js_or m (JStr "An error occurred"));
                   ("error", data)])
      end
  | RejectedRequest message =>
      Responded 502
        (JObj [("message", JStr "No response received from the API");
               ("error", JStr message)])
  | RejectedSetup message =>
      Responded 500 (message_body ("Request setup error: " +:+ message))
  end.

(** [if (!service.loadBalanceStrategy) service.loadBalanceStrategy =
    'ROUND_ROBIN'], then the strategy read back from the record. *)
Definition strategy_or_default (service : Service) : string :=
  match loadBalanceStrategy service with
  | Some s => if String.eqb s "" then "ROUND_ROBIN" else s
  | None => "ROUND_ROBIN"
  end.

(** [service.loadBalanceStrategy] is truthy: there, and not the empty
    string. *)
Definition has_strategy (service : Service) : bool :=
  match loadBalanceStrategy service with
  | Some s => negb (String.eqb s "")
  | None => false
  end.

(** The proxy route rewrites the registry file only when it had to default
    the strategy.  The callback of that write does nothing on success; on an
    error it evaluates [registrationInfo.apiName], and no [registrationInfo]
    is in scope in this handler: a [ReferenceError] is thrown from the
    callback before anything is sent, and nothing catches it. *)
Definition default_write_fails (service : Service) (writeError : option string)
  : bool :=
  match writeError with
  | Some _ => negb (has_strategy service)
  | None => false
  end.

(** [router.all('/:apiName/*')].  [axios] is the downstream as seen through
    the HTTP client; [writeError] is the error, if any, of the registry write
    made when the strategy is defaulted.

    The selection and the read of [.url] are made synchronously, before the
    [try] block: what they throw leaves the handler at once.  Then the
    downstream call is awaited, and the callback of the write runs during
    that wait: if the write failed, its [ReferenceError] ends the request
    with nothing sent.  Otherwise the [try]/[catch] answers.

    At an inherited name that is no service, [service] is the inherited
    object: the strategy and the cursor are assigned on it, not on a record
    of the registry, and [service.instances.length] throws. *)
Definition forward (axios : AxiosConfig -> AxiosResult) (req : Request)
    (writeError : option string) (registry : Registry) : Outcome * Registry :=
  match services registry !! req_apiName req with
  | None =>
      if inherited (req_apiName req) then
        (Uncaught (TypeError
           "Cannot read properties of undefined (reading 'length')"), registry)
      else
        (Responded 400 (message_body "Service name does not exist"), registry)
  | Some service0 =>
      let strategy := strategy_or_default service0 in
      let service := set_loadBalanceStrategy service0 strategy in
      let '(selected, service) := select strategy service in
      let registry := set_service registry (req_apiName req) service in
      match selected with
      | Throw e => (Uncaught e, registry)
      | Return newIndex =>
          match at_index (instances service) newIndex with
          | None =>
              (Uncaught (TypeError
                 "Cannot read properties of undefined (reading 'url')"), registry)
          | Some instance =>
              let url := url instance in
              if default_write_fails service0 writeError then
                (Uncaught (ReferenceError "registrationInfo is not defined"),
                 registry)
              else
                (relay url (axios {| ax_method := method req;
                                     ax_url := show url +:+ path req;
                                     ax_headers := headers req;
                                     ax_data := body req;
                                     ax_params := query req |}),
                 registry)
          end
      end
  end.

(** [registrationInfo.protocol + "://" + registrationInfo.host + ":" +
    registrationInfo.port + "/"] *)
Definition derive_url (registrationInfo : Instance) : string :=
  protocol registrationInfo +:+ "://" +:+ host registrationInfo +:+ ":"
  +:+ port registrationInfo +:+ "/".

(** [router.post('/register')] *)
Definition register (body : Instance) (writeError : option string)
    (registry : Registry) : Outcome * Registry :=
  let registrationInfo := set_url body (derive_url body) in
  match apiAlreadyExists registry registrationInfo with
  | Throw e => (Uncaught e, registry)
  | Return true =>
      (Responded 400 (message_body
         ("Configuration already exists for '" +:+ apiName registrationInfo
          +:+ "' at '" +:+ show (url registrationInfo) +:+ "'")),
       registry)
  | Return false =>
      match services registry !! apiName registrationInfo with
      | None => (Uncaught (no_instances (apiName registrationInfo) "push"), registry)
      | Some service =>
          let registry :=
            set_service registry (apiName registrationInfo)
              (set_instances service (instances service ++ [registrationInfo])) in
          (persist writeError
             (fun error =>
                Responded 500 (message_body
                  ("Could not register '" +:+ apiName registrationInfo +:+ "'" +:+ newline +:+ error)))
             (Responded 200 (message_body
                  ("Successfully registered '" +:+ apiName registrationInfo +:+ "'"))),
           registry)
      end
  end.

(** [router.post('/unregister')]: the body is used as it arrives. *)
Definition unregister (registrationInfo : Instance) (writeError : option string)
    (registry : Registry) : Outcome * Registry :=
  match apiAlreadyExists registry registrationInfo with
  | Throw e => (Uncaught e, registry)
  | Return true =>
      match services registry !! apiName registrationInfo with
      | None =>
          (Uncaught (no_instances (apiName registrationInfo) "findIndex"), registry)
      | Some service =>
          let index :=
            findIndex (fun instance => url_eq (url registrationInfo) (url instance))
                      (instances service) in
          let registry :=
            set_service registry (apiName registrationInfo)
              (set_instances service (splice1 (instances service) index)) in
          (persist writeError
             (fun error =>
                Responded 500 (message_body
                  ("Could not unregister '" +:+ apiName registrationInfo +:+ "'" +:+ newline +:+ error)))
             (Responded 201 (message_body
                  ("Successfully unregistered '" +:+ apiName registrationInfo +:+ "'"))),
           registry)
      end
  | Return false =>
      (Responded 404 (message_body
         ("Configuration does not exist for '" +:+ apiName registrationInfo
          +:+ "' at '" +:+ show (url registrationInfo) +:+ "'")),
       registry)
  end.

End router.

(** ** Vocabulary of the statements *)

(** Is [service.instances[i]] there, with a truthy [enabled]? *)
Definition enabled_at (service : Service) (i : Z) : bool :=
  match at_index (instances service) i with
  | Some instance => truthy (enabled instance)
  | None => false
  end.

(** [n] selections one after the other on the same service record. *)
Fixpoint select_n (n : nat) (service : Service)
  : list (Completion Z) * Service :=
  match n with
  | O => ([], service)
  | S n' =>
      let '(r, service) := loadbalancer.ROUND_ROBIN service in
      let '(rs, service) := select_n n' service in
      (r :: rs, service)
  end.

(** The cursor is a position of the instance list (which is then not
    empty). *)
Definition cursor_in_list (service : Service) : Prop :=
  0 <= index service < len (instances service).

(** What every operation keeps of the cursor. *)
Definition cursor_nonneg (service : Service) : Prop := 0 <= index service.

(** Every service record of [registry'] comes from the record of the same
    name in [registry], and satisfies [Q] if that one satisfied [P]. *)
Definition carries (P Q : Service -> Prop) (registry registry' : Registry) : Prop :=
  forall name service',
    services registry' !! name = Some service' ->
    exists service,
      services registry !! name = Some service /\ (P service -> Q service').

(** A sequence of [POST /register] calls, each with the fate of its write. *)
Fixpoint register_all (calls : list (Instance * option string))
    (registry : Registry) : list Outcome * Registry :=
  match calls with
  | [] => ([], registry)
  | (body, writeError) :: rest =>
      let '(o, registry) := router.register body writeError registry in
      let '(os, registry) := register_all rest registry in
      (o :: os, registry)
  end.

(** The registration was rejected as already existing. *)
Definition rejected (o : Outcome) : bool :=
  match o with
  | Responded status _ => status =? 400
  | Uncaught _ => false
  end.

(** The registration was applied to the registry (answered 200, or 500 when
    only the write failed). *)
Definition applied (o : Outcome) : bool :=
  match o with
  | Responded status _ => negb (status =? 400)
  | Uncaught _ => false
  end.

(** The registration was confirmed to the caller. *)
Definition confirmed (o : Outcome) : bool :=
  match o with
  | Responded status _ => status =? 200
  | Uncaught _ => false
  end.

Fixpoint count {A : Type} (p : A -> bool) (l : list A) : nat :=
  match l with
  | [] => 0
  | x :: rest => ((if p x then 1 else 0) + count p rest)%nat
  end.

(** ** Example data: service ["foo"] of the scenarios *)

Definition instance_at (h p : string) (e : json) : Instance :=
  {| apiName := "foo"; protocol := "http"; host := h; port := p;
     url := Some ("http://" +:+ h +:+ ":" +:+ p +:+ "/"); enabled := e |}.

Definition instanceA : Instance := instance_at "h1" "1" (JBool true).
Definition instanceB : Instance := instance_at "h2" "2" (JBool true).
Definition instanceC : Instance := instance_at "h3" "3" (JBool true).
Definition instanceA_off : Instance := instance_at "h1" "1" (JBool false).
Definition instanceB_off : Instance := instance_at "h2" "2" (JBool false).

Definition foo_service (cursor : Z) (l : list Instance) : Service :=
  {| index := cursor; instances := l; loadBalanceStrategy := Some "ROUND_ROBIN" |}.

Definition foo_registry (cursor : Z) (l : list Instance) : Registry :=
  {| services := {[ "foo" := foo_service cursor l ]} |}.

(** [GET /foo/items?x=1] *)
Definition get_items : Request :=
  {| method := "GET"; req_apiName := "foo"; path := "items";
     headers := JObj []; body := JUndefined; query := JObj [("x", JStr "1")] |}.

(** A downstream that answers every request with [404 {error: "Not found"}]. *)
Definition not_found_data : json := JObj [("error", JStr "Not found")].
Definition answers_404 : AxiosConfig -> AxiosResult :=
  fun _ => RejectedResponse 404 not_found_data.

(** The body a service sends to register itself:
    [{apiName, protocol, host, port}]. *)
Definition foo_body (h p : string) : Instance :=
  {| apiName := "foo"; protocol := "http"; host := h; port := p;
     url := None; enabled := JUndefined |}.

(** Three registrations: a new url, the same url again, and a second new
    url whose write fails. *)
Definition foo_calls : list (Instance * option string) :=
  [(foo_body "h1" "1", None); (foo_body "h1" "1", None);
   (foo_body "h2" "2", Some "EACCES")].

(** Cursor on [A]; the next position holds a disabled instance. *)
Definition lap_service : Service :=
  foo_service 0 [instanceA; instanceB_off; instanceC].

(** Cursor left past the end of a list that has shrunk to three instances. *)
Definition shrunk_service : Service :=
  foo_service 4 [instanceA_off; instanceB; instanceC].

(** ** Vocabulary of the further properties *)

(** The positions of the list in the order a selection would probe them,
    starting where the cursor is advanced to. *)
Definition walk_order (service : Service) : list Z :=
  (fun j : nat =>
     (loadbalancer.advance service + Z.of_nat j) mod len (instances service))
    <$> seq 0 (length (instances service)).

(** The enabled positions, in that order. *)
Definition cycle (service : Service) : list Z :=
  filter (fun i => enabled_at service i = true) (walk_order service).

(** No two instances of the service have the same [url]. *)
Definition unique_urls (service : Service) : Prop :=
  NoDup (url <$> instances service).

(** The body a backend posts to [/register] from its [app.listen] callback:
    [{apiName, protocol, host, port}], with no [url] and no [enabled]. *)
Definition self_registration (name protocol0 host0 port0 : string) : Instance :=
  {| apiName := name; protocol := protocol0; host := host0; port := port0;
     url := None; enabled := JUndefined |}.

(** [registry'] has the service names of [registry]; each of its records is
    [R]-related to the record of that name in [registry], and is that very
    record for every name but [target]. *)
Definition related (R : Service -> Service -> Prop) (target : string)
    (registry registry' : Registry) : Prop :=
  (forall name, services registry' !! name = None <-> services registry !! name = None) /\
  forall name service',
    services registry' !! name = Some service' ->
    exists service,
      services registry !! name = Some service /\
      R service service' /\
      (name <> target -> service' = service).

(** The registration routes leave the cursor and the strategy of a record
    alone; the proxy route leaves its instance list alone. *)
Definition same_cursor_and_strategy (service service' : Service) : Prop :=
  index service' = index service /\
  loadBalanceStrategy service' = loadBalanceStrategy service.

Definition same_instances (service service' : Service) : Prop :=
  instances service' = instances service.

(** ** Indexing facts *)

Lemma at_index_Some_iff {A : Type} (l : list A) (i : Z) (x : A) :
  at_index l i = Some x <-> 0 <= i /\ l !! Z.to_nat i = Some x.
Proof.
  unfold at_index. destruct (Z.ltb_spec i 0); split.
  - discriminate.
  - lia.
  - auto.
  - tauto.
Qed.

Lemma at_index_in_range {A : Type} (l : list A) (i : Z) :
  0 <= i < len l -> exists x, at_index l i = Some x.
Proof.
  intros Hi. unfold len in Hi.
  destruct (lookup_lt_is_Some_2 l (Z.to_nat i)) as [x Hx]; [lia |].
  exists x. apply at_index_Some_iff. split; [lia | done].
Qed.

Lemma at_index_range {A : Type} (l : list A) (i : Z) (x : A) :
  at_index l i = Some x -> 0 <= i < len l /\ x ∈ l.
Proof.
  intros [H0 Hx]%at_index_Some_iff. split.
  - apply lookup_lt_Some in Hx. unfold len. lia.
  - by eapply list_elem_of_lookup_2.
Qed.

Lemma enabled_at_range (service : Service) (i : Z) :
  enabled_at service i = true -> 0 <= i < len (instances service).
Proof.
  unfold enabled_at. destruct (at_index _ i) eqn:E; [| discriminate].
  intros _. by apply at_index_range in E as [? _].
Qed.

Lemma enabled_at_set_index (service : Service) (c i : Z) :
  enabled_at (set_index service c) i = enabled_at service i.
Proof. reflexivity. Qed.

Lemma some_enabled_iff (l : list Instance) :
  loadbalancer.some_enabled l = true <->
  exists instance, instance ∈ l /\ truthy (enabled instance) = true.
Proof.
  unfold loadbalancer.some_enabled. rewrite existsb_exists.
  split; intros (x & Hx & Ht); exists x; split; auto;
    by apply list_elem_of_In.
Qed.

Lemma enabled_at_some_enabled (service : Service) (i : Z) :
  enabled_at service i = true ->
  loadbalancer.some_enabled (instances service) = true.
Proof.
  unfold enabled_at. destruct (at_index _ i) as [x|] eqn:E; [| discriminate].
  intros Ht. apply some_enabled_iff. exists x. split; [| done].
  by apply at_index_range in E as [_ ?].
Qed.

Lemma some_enabled_enabled_at (service : Service) :
  loadbalancer.some_enabled (instances service) = true ->
  exists e, 0 <= e < len (instances service) /\ enabled_at service e = true.
Proof.
  intros (x & Hx & Ht)%some_enabled_iff.
  apply list_elem_of_lookup_1 in Hx as [i Hi].
  exists (Z.of_nat i). split.
  - apply lookup_lt_Some in Hi. unfold len. lia.
  - unfold enabled_at.
    replace (at_index (instances service) (Z.of_nat i)) with (Some x); [done |].
    symmetry. apply at_index_Some_iff. split; [lia |]. by rewrite Nat2Z.id.
Qed.

(** A decidable property that holds somewhere holds at a least position. *)
Lemma least_position_below (p : nat -> bool) (m : nat) :
  (exists k, (k < m)%nat /\ p k = true /\ forall j, (j < k)%nat -> p j = false)
  \/ (forall j, (j < m)%nat -> p j = false).
Proof.
  induction m as [| m [IH | IH]].
  - right. intros j Hj. lia.
  - left. destruct IH as (k & Hk & Hrest). exists k. split; [lia | done].
  - destruct (p m) eqn:E.
    + left. exists m. split; [lia | done].
    + right. intros j Hj. destruct (decide (j = m)) as [-> | Hne]; [done |].
      apply IH. lia.
Qed.

Lemma least_position (p : nat -> bool) (m : nat) :
  p m = true ->
  exists k, (k <= m)%nat /\ p k = true /\ forall j, (j < k)%nat -> p j = false.
Proof.
  intros Hm. destruct (least_position_below p (S m)) as [(k & Hk & Hrest) | Hno].
  - exists k. split; [lia | done].
  - rewrite Hno in Hm; [discriminate | lia].
Qed.

(** ** The round-robin walk *)

Lemma advance_range (service : Service) :
  -1 <= index service -> 0 < len (instances service) ->
  0 <= loadbalancer.advance service < len (instances service).
Proof.
  intros Hc Hn. unfold loadbalancer.advance.
  destruct (Z.geb_spec (index service + 1) (len (instances service))); lia.
Qed.

Lemma advance_in_range (service : Service) :
  -1 <= index service < len (instances service) ->
  loadbalancer.advance service = (index service + 1) mod len (instances service).
Proof.
  intros Hc. unfold loadbalancer.advance.
  destruct (Z.geb_spec (index service + 1) (len (instances service))).
  - replace (index service + 1) with (len (instances service)) by lia.
    by rewrite Z_mod_same_full.
  - rewrite Z.mod_small; lia.
Qed.

Lemma advance_set_index (service : Service) (c : Z) :
  0 <= c < len (instances service) ->
  loadbalancer.advance (set_index service c) = (c + 1) mod len (instances service).
Proof. intros Hc. apply (advance_in_range (set_index service c)). simpl. lia. Qed.

(** With a cursor not below [-1], the walk probes the positions
    [advance], [advance + 1], ... cyclically, and stops at the first enabled
    one, having used one nested call per probed position. *)
Lemma ROUND_ROBIN_fuel_walk (k : nat) :
  forall (fuel : nat) (service : Service),
    (k < fuel)%nat ->
    -1 <= index service ->
    (forall j : nat, (j < k)%nat ->
       enabled_at service
         ((loadbalancer.advance service + Z.of_nat j) mod len (instances service)) = false) ->
    enabled_at service
      ((loadbalancer.advance service + Z.of_nat k) mod len (instances service)) = true ->
    loadbalancer.ROUND_ROBIN_fuel fuel service =
      Some (Return ((loadbalancer.advance service + Z.of_nat k) mod len (instances service)),
            set_index service
              ((loadbalancer.advance service + Z.of_nat k) mod len (instances service))).
Proof.
  induction k as [| k IH]; intros fuel service Hfuel Hc Hdis Hen.
  all: destruct fuel as [| fuel]; [lia |].
  all: pose proof (enabled_at_range _ _ Hen) as Hn.
  all: assert (0 < len (instances service)) as Hpos by lia.
  all: pose proof (advance_range service Hc Hpos) as Hs.
  all: pose proof (enabled_at_some_enabled _ _ Hen) as Hsome.
  all: cbn [loadbalancer.ROUND_ROBIN_fuel]; cbn [set_index instances].
  all: rewrite Hsome; cbn [negb]; unfold loadbalancer.isEnabled; cbn [set_index instances].
  - cbn [Z.of_nat] in *. rewrite Z.add_0_r, Z.mod_small in Hen |- * by lia.
    unfold enabled_at in Hen.
    destruct (at_index (instances service) (loadbalancer.advance service))
      as [x |]; [| discriminate].
    by rewrite Hen.
  - pose proof (Hdis 0%nat ltac:(lia)) as H0.
    cbn [Z.of_nat] in H0. rewrite Z.add_0_r, Z.mod_small in H0 by lia.
    unfold enabled_at in H0.
    destruct (at_index_in_range (instances service) (loadbalancer.advance service) Hs)
      as [x Hx].
    rewrite Hx in H0 |- *. rewrite H0.
    set (s := loadbalancer.advance service) in *.
    assert (forall j : Z, (loadbalancer.advance (set_index service s) + j)
                            mod len (instances service)
                          = (s + (1 + j)) mod len (instances service)) as Hstep.
    { intros j. rewrite (advance_set_index service s Hs).
      rewrite Zplus_mod_idemp_l. f_equal. lia. }
    rewrite (IH fuel (set_index service s)); cbn [set_index instances index].
    + rewrite Hstep. by replace (s + (1 + Z.of_nat k)) with (s + Z.of_nat (S k)) by lia.
    + lia.
    + lia.
    + intros j Hj. rewrite enabled_at_set_index, Hstep.
      replace (s + (1 + Z.of_nat j)) with (s + Z.of_nat (S j)) by lia. apply Hdis. lia.
    + rewrite enabled_at_set_index, Hstep.
      by replace (s + (1 + Z.of_nat k)) with (s + Z.of_nat (S k)) by lia.
Qed.

(** Whenever some instance is enabled, an enabled position lies less than
    one lap ahead of any starting position. *)
Lemma first_enabled_ahead (service : Service) (s : Z) :
  loadbalancer.some_enabled (instances service) = true ->
  0 <= s < len (instances service) ->
  exists k : nat,
    (k < length (instances service))%nat /\
    enabled_at service ((s + Z.of_nat k) mod len (instances service)) = true /\
    forall j : nat, (j < k)%nat ->
      enabled_at service ((s + Z.of_nat j) mod len (instances service)) = false.
Proof.
  intros (e & He & Hen)%some_enabled_enabled_at Hs.
  set (n := len (instances service)) in *.
  set (m := Z.to_nat ((e - s) mod n)).
  assert (0 <= (e - s) mod n < n) as Hm by (apply Z.mod_pos_bound; lia).
  destruct (least_position (fun j => enabled_at service ((s + Z.of_nat j) mod n)) m)
    as (k & Hk & Hpk & Hmin).
  - cbn beta. unfold m. rewrite Z2Nat.id by lia.
    rewrite Zplus_mod_idemp_r. replace (s + (e - s)) with e by lia.
    by rewrite Z.mod_small by lia.
  - exists k. split; [| done]. subst m n. unfold len in *. lia.
Qed.

(** Round-robin with an enabled instance and a cursor not below [-1]
    returns the first enabled position at or after [advance]. *)
Lemma ROUND_ROBIN_returns (service : Service) :
  loadbalancer.some_enabled (instances service) = true ->
  -1 <= index service ->
  exists k : nat,
    (k < length (instances service))%nat /\
    (forall j : nat, (j < k)%nat ->
       enabled_at service
         ((loadbalancer.advance service + Z.of_nat j) mod len (instances service)) = false) /\
    enabled_at service
      ((loadbalancer.advance service + Z.of_nat k) mod len (instances service)) = true /\
    forall fuel : nat, (length (instances service) <= fuel)%nat ->
      loadbalancer.ROUND_ROBIN_fuel fuel service =
        Some (Return ((loadbalancer.advance service + Z.of_nat k) mod len (instances service)),
              set_index service
                ((loadbalancer.advance service + Z.of_nat k) mod len (instances service))).
Proof.
  intros Hsome Hc.
  destruct (some_enabled_enabled_at _ Hsome) as (e & He & _).
  assert (0 < len (instances service)) as Hpos by lia.
  destruct (first_enabled_ahead service (loadbalancer.advance service) Hsome
              (advance_range service Hc Hpos)) as (k & Hk & Hen & Hdis).
  exists k. repeat split; [done | done | done |].
  intros fuel Hfuel. apply ROUND_ROBIN_fuel_walk; [lia | done | done | done].
Qed.

(** The three ways a call can go, whatever the record: no enabled instance;
    a cursor below [-1]; otherwise the walk above.  In each the recursion
    comes back within [length instances] nested calls (one call when the
    list is empty). *)
Lemma ROUND_ROBIN_fuel_none_enabled (fuel : nat) (service : Service) :
  loadbalancer.some_enabled (instances service) = false ->
  loadbalancer.ROUND_ROBIN_fuel (S fuel) service =
    Some (Throw (Error "No enabled instances available"),
          set_index service (loadbalancer.advance service)).
Proof.
  intros Hnone. cbn [loadbalancer.ROUND_ROBIN_fuel set_index instances].
  by rewrite Hnone.
Qed.

Lemma ROUND_ROBIN_fuel_negative (fuel : nat) (service : Service) :
  loadbalancer.some_enabled (instances service) = true ->
  index service < -1 ->
  loadbalancer.ROUND_ROBIN_fuel (S fuel) service =
    Some (Throw (TypeError "Cannot read properties of undefined (reading 'enabled')"),
          set_index service (index service + 1)).
Proof.
  intros Hsome Hc. cbn [loadbalancer.ROUND_ROBIN_fuel set_index instances].
  rewrite Hsome. cbn [negb].
  unfold loadbalancer.isEnabled, loadbalancer.advance. cbn [set_index instances].
  assert (0 <= len (instances service)) by (unfold len; lia).
  destruct (Z.geb_spec (index service + 1) (len (instances service))); [lia |].
  unfold at_index. destruct (Z.ltb_spec (index service + 1) 0); [done | lia].
Qed.

Lemma ROUND_ROBIN_fuel_enough (fuel : nat) (service : Service) :
  (length (instances service) < fuel)%nat ->
  loadbalancer.ROUND_ROBIN_fuel fuel service = Some (loadbalancer.ROUND_ROBIN service).
Proof.
  intros Hfuel. unfold loadbalancer.ROUND_ROBIN.
  destruct fuel as [| fuel]; [lia |].
  destruct (loadbalancer.some_enabled (instances service)) eqn:Hsome.
  - destruct (Z.lt_ge_cases (index service) (-1)) as [Hc | Hc].
    + by rewrite !ROUND_ROBIN_fuel_negative.
    + destruct (ROUND_ROBIN_returns service Hsome) as (k & _ & _ & _ & Hrun); [lia |].
      rewrite !Hrun by lia. done.
  - by rewrite !ROUND_ROBIN_fuel_none_enabled.
Qed.

Lemma ROUND_ROBIN_eq (service : Service) (r : Completion Z * Service) :
  loadbalancer.ROUND_ROBIN_fuel (S (length (instances service))) service = Some r ->
  loadbalancer.ROUND_ROBIN service = r.
Proof. intros H. unfold loadbalancer.ROUND_ROBIN. by rewrite H. Qed.

(** ** Round-robin selection *)

Lemma mod_offset_inj (n s a b : Z) :
  0 <= a < n -> 0 <= b < n -> (s + a) mod n = (s + b) mod n -> a = b.
Proof.
  intros Ha Hb Heq.
  assert (0 < n) as Hn by lia.
  pose proof (Z.div_mod (s + a) n ltac:(lia)) as Da.
  pose proof (Z.div_mod (s + b) n ltac:(lia)) as Db.
  rewrite Heq in Da.
  set (q1 := (s + a) / n) in *. set (q2 := (s + b) / n) in *.
  assert (a - b = n * (q1 - q2)) as Hd by lia.
  assert (q1 - q2 = 0) as Hq by nia.
  rewrite Hq in Hd. lia.
Qed.

(** C1: on a service with a non-empty instance list and an enabled instance,
    [ROUND_ROBIN] never returns the index of a disabled instance, whatever
    the cursor; and with the cursor at a position of the list (or at [-1],
    before the first position) it returns the first enabled position met
    from [(cursor + 1) mod length] on, advancing one position modulo the
    length at a time, and leaves the cursor there. *)
Theorem ROUND_ROBIN_next_enabled (service : Service) :
  instances service <> [] ->
  loadbalancer.some_enabled (instances service) = true ->
  (forall (i : Z) (service' : Service),
      loadbalancer.ROUND_ROBIN service = (Return i, service') ->
      enabled_at service i = true /\ service' = set_index service i) /\
  (-1 <= index service < len (instances service) ->
   exists k : nat,
     (k < length (instances service))%nat /\
     (forall j : nat, (j < k)%nat ->
        enabled_at service
          ((index service + 1 + Z.of_nat j) mod len (instances service)) = false) /\
     enabled_at service
       ((index service + 1 + Z.of_nat k) mod len (instances service)) = true /\
     loadbalancer.ROUND_ROBIN service =
       (Return ((index service + 1 + Z.of_nat k) mod len (instances service)),
        set_index service
          ((index service + 1 + Z.of_nat k) mod len (instances service)))).
Proof.
  intros _ Hsome. split.
  - intros i service' Hrun.
    destruct (Z.lt_ge_cases (index service) (-1)) as [Hc | Hc].
    + unfold loadbalancer.ROUND_ROBIN in Hrun.
      rewrite ROUND_ROBIN_fuel_negative in Hrun by done. discriminate.
    + destruct (ROUND_ROBIN_returns service Hsome Hc) as (k & _ & _ & Hen & Hfuel).
      rewrite (ROUND_ROBIN_eq service _
                 (Hfuel (S (length (instances service))) ltac:(lia))) in Hrun.
      by injection Hrun as <- <-.
  - intros Hc.
    destruct (ROUND_ROBIN_returns service Hsome ltac:(lia))
      as (k & Hk & Hdis & Hen & Hfuel).
    assert (forall j : Z,
              (loadbalancer.advance service + j) mod len (instances service)
              = (index service + 1 + j) mod len (instances service)) as Hpos.
    { intros j. rewrite (advance_in_range service Hc). apply Zplus_mod_idemp_l. }
    exists k. rewrite <- !Hpos. repeat split; [done | | done |].
    + intros j Hj. rewrite <- Hpos. by apply Hdis.
    + apply ROUND_ROBIN_eq, Hfuel. lia.
Qed.

Lemma ROUND_ROBIN_next_enabled_witness :
  exists k : nat,
    (k < length (instances lap_service))%nat /\
    (forall j : nat, (j < k)%nat ->
       enabled_at lap_service
         ((index lap_service + 1 + Z.of_nat j) mod len (instances lap_service)) = false) /\
    enabled_at lap_service
      ((index lap_service + 1 + Z.of_nat k) mod len (instances lap_service)) = true /\
    loadbalancer.ROUND_ROBIN lap_service =
      (Return ((index lap_service + 1 + Z.of_nat k) mod len (instances lap_service)),
       set_index lap_service
         ((index lap_service + 1 + Z.of_nat k) mod len (instances lap_service))).
Proof.
  refine (proj2 (ROUND_ROBIN_next_enabled lap_service _ _) _).
  - discriminate.
  - reflexivity.
  - unfold lap_service, foo_service, len. simpl. lia.
Defined.

(** C10: with an enabled instance and the cursor at or past the last
    position ([cursor + 1 >= length], as after an unregister), [ROUND_ROBIN]
    restarts from position [0]: it returns the first enabled position of the
    list, which is in bounds, and leaves the cursor there. *)
Theorem ROUND_ROBIN_out_of_range_resets (service : Service) :
  loadbalancer.some_enabled (instances service) = true ->
  index service + 1 >= len (instances service) ->
  loadbalancer.advance service = 0 /\
  exists k : nat,
    (k < length (instances service))%nat /\
    (forall j : nat, (j < k)%nat -> enabled_at service (Z.of_nat j) = false) /\
    enabled_at service (Z.of_nat k) = true /\
    loadbalancer.ROUND_ROBIN service =
      (Return (Z.of_nat k), set_index service (Z.of_nat k)).
Proof.
  intros Hsome Hc.
  assert (loadbalancer.advance service = 0) as Hadv.
  { unfold loadbalancer.advance.
    destruct (Z.geb_spec (index service + 1) (len (instances service))); [done | lia]. }
  split; [done |].
  assert (-1 <= index service) as Hc' by (unfold len in Hc; lia).
  destruct (ROUND_ROBIN_returns service Hsome Hc') as (k & Hk & Hdis & Hen & Hfuel).
  rewrite Hadv in Hdis, Hen, Hfuel.
  assert (forall j : nat, (j < length (instances service))%nat ->
            (0 + Z.of_nat j) mod len (instances service) = Z.of_nat j) as Hsmall.
  { intros j Hj. apply Z.mod_small. unfold len. lia. }
  exists k. rewrite Hsmall in Hen, Hfuel by done. repeat split; [done | | done |].
  - intros j Hj. rewrite <- (Hsmall j) by lia. by apply Hdis.
  - apply ROUND_ROBIN_eq, Hfuel. lia.
Qed.

Lemma ROUND_ROBIN_out_of_range_resets_witness :
  loadbalancer.advance shrunk_service = 0 /\
  exists k : nat,
    (k < length (instances shrunk_service))%nat /\
    (forall j : nat, (j < k)%nat -> enabled_at shrunk_service (Z.of_nat j) = false) /\
    enabled_at shrunk_service (Z.of_nat k) = true /\
    loadbalancer.ROUND_ROBIN shrunk_service =
      (Return (Z.of_nat k), set_index shrunk_service (Z.of_nat k)).
Proof.
  apply (ROUND_ROBIN_out_of_range_resets shrunk_service).
  - reflexivity.
  - unfold shrunk_service, foo_service, len. simpl. lia.
Defined.

(** ** Cyclic coverage *)

Lemma all_enabled_at (service : Service) (i : Z) :
  Forall (fun instance => truthy (enabled instance) = true) (instances service) ->
  0 <= i < len (instances service) ->
  enabled_at service i = true.
Proof.
  intros Hall Hi. unfold enabled_at.
  destruct (at_index_in_range _ _ Hi) as [x Hx]. rewrite Hx.
  apply at_index_range in Hx as [_ Hx].
  rewrite Forall_forall in Hall. by apply Hall.
Qed.

(** With every instance enabled a selection is a single step of the cursor. *)
Lemma ROUND_ROBIN_all_enabled (service : Service) :
  Forall (fun instance => truthy (enabled instance) = true) (instances service) ->
  0 < len (instances service) ->
  -1 <= index service ->
  loadbalancer.ROUND_ROBIN service =
    (Return (loadbalancer.advance service),
     set_index service (loadbalancer.advance service)).
Proof.
  intros Hall Hpos Hc.
  pose proof (advance_range service Hc Hpos) as Hs.
  apply ROUND_ROBIN_eq.
  rewrite (ROUND_ROBIN_fuel_walk 0); cbn [Z.of_nat];
    rewrite ?Z.add_0_r, ?Z.mod_small by lia; try done; try lia.
  by apply all_enabled_at.
Qed.

Lemma select_n_all_enabled (n : nat) :
  forall service : Service,
    Forall (fun instance => truthy (enabled instance) = true) (instances service) ->
    0 < len (instances service) ->
    -1 <= index service ->
    fst (select_n n service) =
      (fun j : nat =>
         Return ((loadbalancer.advance service + Z.of_nat j)
                   mod len (instances service))) <$> seq 0 n.
Proof.
  induction n as [| n IH]; intros service Hall Hpos Hc; [done |].
  pose proof (advance_range service Hc Hpos) as Hs.
  cbn [select_n]. rewrite ROUND_ROBIN_all_enabled by done.
  specialize (IH (set_index service (loadbalancer.advance service)) Hall Hpos).
  destruct (select_n n _) as [rs service'] eqn:E.
  cbn [fst] in *. rewrite IH by (cbn; lia).
  cbn [seq fmap list_fmap]. f_equal.
  - cbn [Z.of_nat]. by rewrite Z.add_0_r, Z.mod_small by lia.
  - rewrite <- seq_shift, <- list_fmap_compose.
    apply list_fmap_ext. intros _ j _. cbn [compose set_index instances]. f_equal.
    rewrite (advance_set_index service _ Hs), Zplus_mod_idemp_l. f_equal. lia.
Qed.

(** C2: on a service whose N instances are all enabled, N selections in a
    row return N indices without repetition, and every position of the list
    is among them, from whatever cursor the record started with (any value
    from [-1] up). *)
Theorem select_n_visits_each_once (service : Service) :
  Forall (fun instance => truthy (enabled instance) = true) (instances service) ->
  -1 <= index service ->
  exists indices : list Z,
    fst (select_n (length (instances service)) service) = Return <$> indices /\
    length indices = length (instances service) /\
    NoDup indices /\
    (forall i : Z, i ∈ indices <-> 0 <= i < len (instances service)).
Proof.
  intros Hall Hc.
  destruct (decide (instances service = [])) as [Hnil | Hne].
  { exists []. rewrite Hnil. split; [done |]. split; [done |].
    split; [constructor |]. intros i. split.
    - by intros ?%elem_of_nil.
    - unfold len. cbn [length]. lia. }
  assert (0 < len (instances service)) as Hpos.
  { unfold len. destruct (instances service); [done | cbn; lia]. }
  pose proof (advance_range service Hc Hpos) as Hs.
  set (n := len (instances service)) in *.
  set (s := loadbalancer.advance service) in *.
  exists ((fun j : nat => (s + Z.of_nat j) mod n) <$> seq 0 (length (instances service))).
  split; [| split; [| split]].
  - rewrite select_n_all_enabled by done. by rewrite <- list_fmap_compose.
  - by rewrite length_fmap, length_seq.
  - apply NoDup_fmap_2_strong; [| apply NoDup_seq].
    intros a b Ha%elem_of_seq Hb%elem_of_seq Heq.
    apply Nat2Z.inj, (mod_offset_inj n s); [subst n; unfold len; lia .. | done].
  - intros i. rewrite list_elem_of_fmap. split.
    + intros (j & -> & _). apply Z.mod_pos_bound. lia.
    + intros Hi. exists (Z.to_nat ((i - s) mod n)).
      assert (0 <= (i - s) mod n < n) as Hm by (apply Z.mod_pos_bound; lia).
      split.
      * rewrite Z2Nat.id by lia. rewrite Zplus_mod_idemp_r.
        replace (s + (i - s)) with i by lia. by rewrite Z.mod_small.
      * apply elem_of_seq. subst n. unfold len in *. lia.
Qed.

Lemma select_n_visits_each_once_witness :
  fst (select_n 3 (foo_service 7 [instanceA; instanceB; instanceC])) =
    [Return 0; Return 1; Return 2] /\
  exists indices : list Z,
    fst (select_n (length (instances (foo_service 1 [instanceA; instanceB; instanceC])))
           (foo_service 1 [instanceA; instanceB; instanceC])) = Return <$> indices /\
    length indices = length (instances (foo_service 1 [instanceA; instanceB; instanceC])) /\
    NoDup indices /\
    (forall i : Z, i ∈ indices <->
       0 <= i < len (instances (foo_service 1 [instanceA; instanceB; instanceC]))).
Proof.
  split; [reflexivity |].
  apply (select_n_visits_each_once (foo_service 1 [instanceA; instanceB; instanceC])).
  - repeat constructor.
  - simpl. lia.
Defined.

(** ** The proxy route *)

Lemma ROUND_ROBIN_none_enabled (service : Service) :
  loadbalancer.some_enabled (instances service) = false ->
  loadbalancer.ROUND_ROBIN service =
    (Throw (Error "No enabled instances available"),
     set_index service (loadbalancer.advance service)).
Proof. intros Hnone. by apply ROUND_ROBIN_eq, ROUND_ROBIN_fuel_none_enabled. Qed.

(** With no enabled instance the selection throws, and the exception leaves
    the handler: the call is made outside its [try] block. *)
Lemma forward_none_enabled axios (req : Request) (writeError : option string)
    (registry : Registry) (service : Service) :
  services registry !! req_apiName req = Some service ->
  router.strategy_or_default service = "ROUND_ROBIN" ->
  loadbalancer.some_enabled (instances service) = false ->
  exists registry',
    router.forward axios req writeError registry =
      (Uncaught (Error "No enabled instances available"), registry').
Proof.
  intros Hlook Hstrat Hnone. unfold router.forward. rewrite Hlook, Hstrat.
  unfold router.select. cbn [String.eqb Ascii.eqb Bool.eqb].
  rewrite ROUND_ROBIN_none_enabled by done. eauto.
Qed.

(** C3: service ["foo"] with both instances disabled, and with no instance at
    all.  The selection fails at once with its own error, in a single call;
    but the proxy handler sends no response for it: the error leaves the
    handler uncaught, whereas an unknown service name is answered 400. *)
Theorem forward_all_disabled_uncaught (axios : AxiosConfig -> AxiosResult)
    (writeError : option string) :
  loadbalancer.ROUND_ROBIN_fuel 1 (foo_service 0 [instanceA_off; instanceB_off]) =
    Some (Throw (Error "No enabled instances available"),
          foo_service 1 [instanceA_off; instanceB_off]) /\
  loadbalancer.ROUND_ROBIN_fuel 1 (foo_service 0 []) =
    Some (Throw (Error "No enabled instances available"), foo_service 0 []) /\
  router.forward axios get_items writeError
      (foo_registry 0 [instanceA_off; instanceB_off]) =
    (Uncaught (Error "No enabled instances available"),
     foo_registry 1 [instanceA_off; instanceB_off]) /\
  router.forward axios get_items writeError (foo_registry 0 []) =
    (Uncaught (Error "No enabled instances available"), foo_registry 0 []) /\
  router.forward axios get_items writeError {| services := ∅ |} =
    (Responded 400 (message_body "Service name does not exist"),
     {| services := ∅ |}).
Proof. repeat split; reflexivity. Qed.





(** ** Searching and cutting the instance list *)

Lemma url_eq_sym (a b : option string) : url_eq a b = url_eq b a.
Proof. unfold url_eq. apply bool_decide_ext. split; congruence. Qed.

Lemma url_eq_true (a b : option string) : url_eq a b = true <-> a = b.
Proof. unfold url_eq. apply bool_decide_eq_true. Qed.

Lemma findIndex_range {A : Type} (p : A -> bool) (l : list A) :
  -1 <= findIndex p l < len l.
Proof.
  unfold len. induction l as [| x l IH]; cbn [findIndex length]; [lia |].
  destruct (p x); [lia |].
  destruct (Z.eqb_spec (findIndex p l) (-1)); lia.
Qed.

Lemma findIndex_none {A : Type} (p : A -> bool) (l : list A) :
  findIndex p l = -1 <-> existsb p l = false.
Proof.
  induction l as [| x l IH]; cbn [findIndex existsb]; [done |].
  pose proof (findIndex_range p l) as Hr.
  destruct (p x); cbn [orb]; [split; [lia | discriminate] |].
  destruct (Z.eqb_spec (findIndex p l) (-1)) as [He | Hne].
  - split; [intros _; by apply IH | done].
  - rewrite <- IH. split; intros; lia.
Qed.

(** The first match: what precedes it does not match, and [splice] at its
    index removes exactly it. *)
Lemma findIndex_first {A : Type} (p : A -> bool) (l : list A) :
  existsb p l = true ->
  exists pre x post,
    l = pre ++ x :: post /\
    p x = true /\
    Forall (fun y => p y = false) pre /\
    findIndex p l = len pre /\
    splice1 l (findIndex p l) = pre ++ post.
Proof.
  induction l as [| y l IH]; cbn [existsb findIndex]; [discriminate |].
  destruct (p y) eqn:Hy; cbn [orb].
  - intros _. exists [], y, l. by repeat split.
  - intros Hex. destruct (IH Hex) as (pre & x & post & -> & Hx & Hpre & Hfi & Hsp).
    exists (y :: pre), x, post.
    pose proof (findIndex_range p (pre ++ x :: post)) as Hr.
    destruct (Z.eqb_spec (findIndex p (pre ++ x :: post)) (-1)) as [He | Hne].
    { unfold len in Hfi. lia. }
    repeat split; try done.
    + by constructor.
    + unfold len in *. cbn [length]. lia.
    + unfold splice1, len in *. revert Hsp.
      cbn [length]. rewrite Hfi.
      destruct (Z.ltb_spec (Z.of_nat (length pre)) 0); [lia |].
      destruct (Z.ltb_spec (Z.of_nat (length pre) + 1) 0); [lia |].
      rewrite !Z.min_l by (rewrite ?length_app; cbn [length]; lia).
      replace (Z.to_nat (Z.of_nat (length pre) + 1)) with (S (length pre)) by lia.
      rewrite Nat2Z.id. intros Hd. simpl. by rewrite Hd.
Qed.

Lemma existsb_url_elem_of (u : option string) (l : list Instance) :
  existsb (fun instance => url_eq (url instance) u) l = true <-> u ∈ url <$> l.
Proof.
  rewrite existsb_exists, list_elem_of_fmap. split.
  - intros (x & Hx%list_elem_of_In & He%url_eq_true). eauto.
  - intros (x & -> & Hx%list_elem_of_In). exists x. split; [done |].
    by apply url_eq_true.
Qed.

(** ** The registration routes on a known service *)

Lemma register_known (body : Instance) (writeError : option string)
    (registry : Registry) (service : Service) :
  services registry !! apiName body = Some service ->
  router.register body writeError registry =
    if existsb (fun instance => url_eq (url instance) (Some (router.derive_url body)))
               (instances service)
    then
      (Responded 400 (message_body
         ("Configuration already exists for '" +:+ apiName body
          +:+ "' at '" +:+ router.derive_url body +:+ "'")),
       registry)
    else
      (router.persist writeError
         (fun error =>
            Responded 500 (message_body
              ("Could not register '" +:+ apiName body +:+ "'" +:+ newline +:+ error)))
         (Responded 200 (message_body
              ("Successfully registered '" +:+ apiName body +:+ "'"))),
       set_service registry (apiName body)
         (set_instances service
            (instances service ++ [set_url body (router.derive_url body)]))).
Proof.
  intros Hlook. unfold router.register, router.apiAlreadyExists.
  cbn [set_url apiName url]. rewrite Hlook.
  by destruct (existsb _ _).
Qed.

Lemma unregister_known (registrationInfo : Instance) (writeError : option string)
    (registry : Registry) (service : Service) :
  services registry !! apiName registrationInfo = Some service ->
  router.unregister registrationInfo writeError registry =
    if existsb (fun instance => url_eq (url instance) (url registrationInfo))
               (instances service)
    then
      (router.persist writeError
         (fun error =>
            Responded 500 (message_body
              ("Could not unregister '" +:+ apiName registrationInfo +:+ "'"
               +:+ newline +:+ error)))
         (Responded 201 (message_body
              ("Successfully unregistered '" +:+ apiName registrationInfo +:+ "'"))),
       set_service registry (apiName registrationInfo)
         (set_instances service
            (splice1 (instances service)
               (findIndex (fun instance => url_eq (url instance) (url registrationInfo))
                          (instances service)))))
    else
      (Responded 404 (message_body
         ("Configuration does not exist for '" +:+ apiName registrationInfo
          +:+ "' at '" +:+ show (url registrationInfo) +:+ "'")),
       registry).
Proof.
  intros Hlook. unfold router.unregister, router.apiAlreadyExists. rewrite Hlook.
  destruct (existsb _ _); [| done].
  do 4 f_equal. clear. induction (instances service) as [| x l IH]; [done |].
  cbn [findIndex]. by rewrite IH, url_eq_sym.
Qed.

Lemma enableOrDisable_known (name : string) (requestBody : EnableBody)
    (writeError : option string) (registry : Registry) (service : Service) :
  services registry !! name = Some service ->
  router.enableOrDisable name requestBody writeError registry =
    if existsb (fun instance => url_eq (url instance) (body_url requestBody))
               (instances service)
    then
      (router.persist writeError
         (fun error =>
            Responded 500 (message_body
              ("Could not enable/disable '" +:+ show (body_url requestBody)
               +:+ "' for service '" +:+ name +:+ "'" +:+ newline +:+ error)))
         (Responded 200 (message_body
              ("Successfully enable/disable '" +:+ show (body_url requestBody)
               +:+ "' for service '" +:+ name +:+ "'"))),
       set_service registry name
         (set_instances service
            (alter (fun instance => set_enabled instance (body_enabled requestBody))
               (Z.to_nat (findIndex
                            (fun instance => url_eq (url instance) (body_url requestBody))
                            (instances service)))
               (instances service))))
    else
      (Responded 404
         (JObj [("status", JStr "error");
                ("message", JStr ("Could not find '" +:+ show (body_url requestBody)
                                  +:+ "' for service '" +:+ name +:+ "'"))]),
       registry).
Proof.
  intros Hlook. unfold router.enableOrDisable. rewrite Hlook.
  destruct (existsb _ _) eqn:Hex.
  - destruct (Z.eqb_spec (findIndex (fun s => url_eq (url s) (body_url requestBody))
                            (instances service)) (-1)) as [He | Hne]; [| done].
    apply findIndex_none in He. congruence.
  - apply findIndex_none in Hex. by rewrite Hex.
Qed.

(** ** Sequences of registrations *)

Lemma lookup_set_service (registry : Registry) (name : string) (service : Service) :
  services (set_service registry name service) !! name = Some service.
Proof. cbn. apply lookup_insert_eq. Qed.

Lemma lookup_set_service_ne (registry : Registry) (name other : string)
    (service : Service) :
  name <> other ->
  services (set_service registry name service) !! other = services registry !! other.
Proof. intros Hne. cbn. by apply lookup_insert_ne. Qed.

Lemma persist_applied (writeError : option string) (ok : string) f :
  let o := router.persist writeError
             (fun error => Responded 500 (message_body (f error)))
             (Responded 200 (message_body ok)) in
  applied o = true /\ rejected o = false /\
  (writeError = None -> confirmed o = true).
Proof. by destruct writeError. Qed.

Lemma register_all_counts (name : string) (calls : list (Instance * option string)) :
  forall (registry : Registry) (service : Service),
    services registry !! name = Some service ->
    Forall (fun call => apiName (fst call) = name) calls ->
    exists service',
      services (snd (register_all calls registry)) !! name = Some service' /\
      length (instances service') =
        (length (instances service)
         + count applied (fst (register_all calls registry)))%nat /\
      (count applied (fst (register_all calls registry))
       + count rejected (fst (register_all calls registry)) = length calls)%nat /\
      (Forall (fun call => snd call = None) calls ->
       count confirmed (fst (register_all calls registry))
       = count applied (fst (register_all calls registry))).
Proof.
  induction calls as [| [body writeError] calls IH]; intros registry service Hlook Hnames.
  { exists service. cbn. repeat split; [done | lia]. }
  apply Forall_cons in Hnames as [Hname Hnames]. cbn [fst] in Hname. subst name.
  cbn [register_all]. rewrite (register_known body writeError registry service Hlook).
  destruct (existsb _ (instances service)).
  - destruct (IH registry service Hlook Hnames) as (service' & Hl & Hlen & Hsum & Hconf).
    destruct (register_all calls registry) as [os registry'].
    exists service'. cbn [fst snd count rejected applied confirmed length] in *.
    cbn [Z.eqb Pos.eqb negb Nat.add]. repeat split; [done | lia | lia |].
    intros [_ Hw]%Forall_cons. auto.
  - set (service1 := set_instances service _).
    destruct (IH (set_service registry (apiName body) service1) service1
                (lookup_set_service _ _ _) Hnames)
      as (service' & Hl & Hlen & Hsum & Hconf).
    destruct (register_all calls _) as [os registry'].
    destruct (persist_applied writeError ("Successfully registered '"
                +:+ apiName body +:+ "'")
                (fun error => "Could not register '" +:+ apiName body +:+ "'"
                              +:+ newline +:+ error))
      as (Happ & Hrej & Hok).
    cbn zeta in Happ, Hrej, Hok.
    exists service'. cbn [fst snd count] in *. rewrite Happ, Hrej.
    subst service1. cbn [set_instances instances] in Hlen.
    rewrite length_app in Hlen. cbn [length] in Hlen |- *.
    repeat split; [done | lia | lia |].
    intros [Hw Hws]%Forall_cons. cbn [snd] in Hw.
    rewrite (Hok Hw), (Hconf Hws). done.
Qed.

Lemma register_all_distinct (name : string) (calls : list (Instance * option string)) :
  forall (registry : Registry) (service : Service),
    services registry !! name = Some service ->
    Forall (fun call => apiName (fst call) = name) calls ->
    NoDup ((fun call => router.derive_url (fst call)) <$> calls) ->
    (forall call, call ∈ calls ->
       Some (router.derive_url (fst call)) ∉ url <$> instances service) ->
    count applied (fst (register_all calls registry)) = length calls.
Proof.
  induction calls as [| [body writeError] calls IH];
    intros registry service Hlook Hnames Hnodup Hfresh; [done |].
  apply Forall_cons in Hnames as [Hname Hnames]. cbn [fst] in Hname. subst name.
  rewrite fmap_cons in Hnodup. apply NoDup_cons in Hnodup as [Hhead Hnodup].
  cbn [register_all]. rewrite (register_known body writeError registry service Hlook).
  destruct (existsb _ (instances service)) eqn:Hex.
  { apply existsb_url_elem_of in Hex. exfalso.
    eapply (Hfresh (body, writeError)); [left | done]. }
  set (service1 := set_instances service _).
  specialize (IH (set_service registry (apiName body) service1) service1
                (lookup_set_service _ _ _) Hnames Hnodup).
  destruct (register_all calls _) as [os registry'].
  cbn [fst count] in *. rewrite IH.
  - by destruct writeError.
  - intros call Hcall. subst service1. cbn [set_instances instances].
    rewrite fmap_app, elem_of_app. intros [Hold | Hnew].
    + eapply Hfresh; [right |]; done.
    + cbn in Hnew. apply list_elem_of_singleton in Hnew. injection Hnew as Hnew.
      apply Hhead. rewrite <- Hnew. apply list_elem_of_fmap. by exists call.
Qed.

(** C4: on a known service a registration whose derived url is already in
    the list is answered 400 and changes nothing; after any sequence of
    registrations the list has grown by the number of registrations that
    were applied (all those not answered 400; with every write succeeding,
    those answered 200); and registrations with pairwise distinct derived
    urls, none of them in the list yet, are all applied. *)
Theorem register_all_length (name : string) (calls : list (Instance * option string))
    (registry : Registry) (service : Service) :
  services registry !! name = Some service ->
  Forall (fun call => apiName (fst call) = name) calls ->
  (forall (body : Instance) (writeError : option string),
      apiName body = name ->
      Some (router.derive_url body) ∈ url <$> instances service ->
      router.register body writeError registry =
        (Responded 400 (message_body
           ("Configuration already exists for '" +:+ apiName body
            +:+ "' at '" +:+ router.derive_url body +:+ "'")),
         registry)) /\
  (exists service',
      services (snd (register_all calls registry)) !! name = Some service' /\
      length (instances service') =
        (length (instances service)
         + count applied (fst (register_all calls registry)))%nat /\
      (count applied (fst (register_all calls registry))
       + count rejected (fst (register_all calls registry)) = length calls)%nat /\
      (Forall (fun call => snd call = None) calls ->
       count confirmed (fst (register_all calls registry))
       = count applied (fst (register_all calls registry)))) /\
  (NoDup ((fun call => router.derive_url (fst call)) <$> calls) ->
   (forall call, call ∈ calls ->
      Some (router.derive_url (fst call)) ∉ url <$> instances service) ->
   count applied (fst (register_all calls registry)) = length calls).
Proof.
  intros Hlook Hnames. split; [| split].
  - intros body writeError <- Hin.
    rewrite (register_known body writeError registry service Hlook).
    apply existsb_url_elem_of in Hin. by rewrite Hin.
  - by apply (register_all_counts name).
  - by apply (register_all_distinct name).
Qed.

Lemma register_all_length_witness :
  fst (register_all foo_calls (foo_registry 0 [])) =
    [Responded 200 (message_body "Successfully registered 'foo'");
     Responded 400 (message_body
       "Configuration already exists for 'foo' at 'http://h1:1/'");
     Responded 500 (message_body
       ("Could not register 'foo'" +:+ newline +:+ "EACCES"))] /\
  exists service',
    services (snd (register_all foo_calls (foo_registry 0 []))) !! "foo"
      = Some service' /\
    length (instances service') =
      (length (instances (foo_service 0 []))
       + count applied (fst (register_all foo_calls (foo_registry 0 []))))%nat /\
    (count applied (fst (register_all foo_calls (foo_registry 0 [])))
     + count rejected (fst (register_all foo_calls (foo_registry 0 [])))
     = length foo_calls)%nat /\
    (Forall (fun call => snd call = None) foo_calls ->
     count confirmed (fst (register_all foo_calls (foo_registry 0 [])))
     = count applied (fst (register_all foo_calls (foo_registry 0 [])))).
Proof.
  split; [reflexivity |].
  refine (proj1 (proj2 (register_all_length "foo" foo_calls (foo_registry 0 [])
                          (foo_service 0 []) _ _))).
  - reflexivity.
  - repeat constructor.
Defined.

(** ** Unregistration *)

(** C6 (amended): on a known service, unregister looks for the [url]
    property of the request body as it arrived; nothing is derived from
    protocol, host and port.  The first instance with that url is removed and
    the call answered 201 (500 when the write fails); when no instance has
    it, the call is answered 404 and the registry is unchanged. *)
Theorem unregister_by_body_url (registrationInfo : Instance)
    (writeError : option string) (registry : Registry) (service : Service) :
  services registry !! apiName registrationInfo = Some service ->
  (url registrationInfo ∈ url <$> instances service ->
   exists pre instance post,
     instances service = pre ++ instance :: post /\
     url instance = url registrationInfo /\
     Forall (fun other => url other <> url registrationInfo) pre /\
     router.unregister registrationInfo writeError registry =
       (match writeError with
        | None =>
            Responded 201 (message_body
              ("Successfully unregistered '" +:+ apiName registrationInfo +:+ "'"))
        | Some error =>
            Responded 500 (message_body
              ("Could not unregister '" +:+ apiName registrationInfo +:+ "'"
               +:+ newline +:+ error))
        end,
        set_service registry (apiName registrationInfo)
          (set_instances service (pre ++ post)))) /\
  (url registrationInfo ∉ url <$> instances service ->
   router.unregister registrationInfo writeError registry =
     (Responded 404 (message_body
        ("Configuration does not exist for '" +:+ apiName registrationInfo
         +:+ "' at '" +:+ show (url registrationInfo) +:+ "'")),
      registry)).
Proof.
  intros Hlook.
  rewrite (unregister_known registrationInfo writeError registry service Hlook).
  split.
  - intros Hin. pose proof Hin as Hex. apply existsb_url_elem_of in Hex.
    rewrite Hex.
    destruct (findIndex_first _ _ Hex) as (pre & x & post & Hl & Hx & Hpre & _ & Hsp).
    exists pre, x, post. split; [done |]. split; [by apply url_eq_true |].
    split.
    + eapply Forall_impl; [exact Hpre |]. cbn beta. intros y Hy Heq.
      apply url_eq_true in Heq. congruence.
    + rewrite Hsp. by destruct writeError.
  - intros Hnot. destruct (existsb _ _) eqn:Hex; [| done].
    by apply existsb_url_elem_of in Hex.
Qed.

Lemma unregister_by_body_url_witness :
  router.unregister instanceA None (foo_registry 1 [instanceA; instanceB]) =
    (Responded 201 (message_body "Successfully unregistered 'foo'"),
     foo_registry 1 [instanceB]) /\
  router.unregister (foo_body "h1" "1") None (foo_registry 1 [instanceA; instanceB]) =
    (Responded 404 (message_body
       ("Configuration does not exist for '" +:+ apiName (foo_body "h1" "1")
        +:+ "' at '" +:+ show (url (foo_body "h1" "1")) +:+ "'")),
     foo_registry 1 [instanceA; instanceB]).
Proof.
  split; [reflexivity |].
  refine (proj2 (unregister_by_body_url (foo_body "h1" "1") None
                   (foo_registry 1 [instanceA; instanceB])
                   (foo_service 1 [instanceA; instanceB]) _) _).
  - reflexivity.
  - apply (bool_decide_unpack _). vm_compute. exact I.
Defined.

(** C6, as stated, fails: the url derived from the body is that of instance
    [A], yet the call is answered 404 and [A] stays in the list. *)
Lemma unregister_does_not_derive_url :
  Some (router.derive_url (foo_body "h1" "1")) = url instanceA /\
  router.unregister (foo_body "h1" "1") None (foo_registry 0 [instanceA]) =
    (Responded 404 (message_body
       "Configuration does not exist for 'foo' at 'undefined'"),
     foo_registry 0 [instanceA]).
Proof. split; reflexivity. Qed.

(** ** Enable / disable *)

(** C7: service ["foo"] holds instance [A]; the registry knows no ["bar"].
    Disabling an unknown url of ["foo"] is answered 404 and changes nothing,
    and disabling [A] sets its flag and is answered 200.  But for the unknown
    service ["bar"] no 404 is sent: reading [.instances] of the missing
    record throws, where the proxy route answers the same name with 400. *)
Theorem enableOrDisable_unknown_service_throws (axios : AxiosConfig -> AxiosResult)
    (writeError : option string) :
  router.enableOrDisable "bar"
      {| body_url := Some "http://h1:1/"; body_enabled := JBool false |}
      None (foo_registry 0 [instanceA]) =
    (Uncaught (TypeError "Cannot read properties of undefined (reading 'instances')"),
     foo_registry 0 [instanceA]) /\
  router.forward axios
      {| method := "GET"; req_apiName := "bar"; path := "items";
         headers := JObj []; body := JUndefined; query := JObj [] |}
      writeError (foo_registry 0 [instanceA]) =
    (Responded 400 (message_body "Service name does not exist"),
     foo_registry 0 [instanceA]) /\
  router.enableOrDisable "foo"
      {| body_url := Some "http://h9:9/"; body_enabled := JBool false |}
      None (foo_registry 0 [instanceA]) =
    (Responded 404
       (JObj [("status", JStr "error");
              ("message", JStr "Could not find 'http://h9:9/' for service 'foo'")]),
     foo_registry 0 [instanceA]) /\
  router.enableOrDisable "foo"
      {| body_url := Some "http://h1:1/"; body_enabled := JBool false |}
      None (foo_registry 0 [instanceA]) =
    (Responded 200 (message_body
       "Successfully enable/disable 'http://h1:1/' for service 'foo'"),
     foo_registry 0 [instanceA_off]).
Proof. repeat split; reflexivity. Qed.

(** On a known service the route does what is asked of it: without a
    matching url, 404 and no change; with one, the flag of the first match
    is set, the other instances and the cursor staying as they were. *)
Lemma enableOrDisable_known_service (name : string) (requestBody : EnableBody)
    (writeError : option string) (registry : Registry) (service : Service) :
  services registry !! name = Some service ->
  (body_url requestBody ∉ url <$> instances service ->
   router.enableOrDisable name requestBody writeError registry =
     (Responded 404
        (JObj [("status", JStr "error");
               ("message", JStr ("Could not find '" +:+ show (body_url requestBody)
                                 +:+ "' for service '" +:+ name +:+ "'"))]),
      registry)) /\
  (body_url requestBody ∈ url <$> instances service ->
   exists pre instance post,
     instances service = pre ++ instance :: post /\
     url instance = body_url requestBody /\
     Forall (fun other => url other <> body_url requestBody) pre /\
     snd (router.enableOrDisable name requestBody writeError registry) =
       set_service registry name
         (set_instances service
            (pre ++ set_enabled instance (body_enabled requestBody) :: post)) /\
     fst (router.enableOrDisable name requestBody None registry) =
       Responded 200 (message_body
         ("Successfully enable/disable '" +:+ show (body_url requestBody)
          +:+ "' for service '" +:+ name +:+ "'"))).
Proof.
  intros Hlook.
  rewrite !(enableOrDisable_known name requestBody _ registry service Hlook).
  split.
  - intros Hnot. destruct (existsb _ _) eqn:Hex; [| done].
    by apply existsb_url_elem_of in Hex.
  - intros Hin. pose proof Hin as Hex. apply existsb_url_elem_of in Hex.
    rewrite Hex.
    destruct (findIndex_first _ _ Hex) as (pre & x & post & Hl & Hx & Hpre & Hfi & _).
    exists pre, x, post. split; [done |]. split; [by apply url_eq_true |].
    split; [| split; [| done]].
    + eapply Forall_impl; [exact Hpre |]. cbn beta. intros y Hy Heq.
      apply url_eq_true in Heq. congruence.
    + cbn [snd]. rewrite Hfi. unfold len. rewrite Nat2Z.id. rewrite Hl.
      do 2 f_equal.
      rewrite alter_app_r_alt by lia. by rewrite Nat.sub_diag.
Qed.

(** ** Persistence failures *)

(** C8: for each of register, unregister and enable/disable, the registry
    left behind is the same whether the write fails or succeeds; and where
    the call with a successful write is confirmed (200, 201, 200), the call
    with a failed write is answered 500 with a message that carries the
    error, the mutation being in the registry all the same. *)
Theorem persist_failure_keeps_mutation (registry : Registry) (error : string) :
  (forall body : Instance,
      snd (router.register body (Some error) registry)
      = snd (router.register body None registry) /\
      forall ok, fst (router.register body None registry) = Responded 200 ok ->
        fst (router.register body (Some error) registry) =
          Responded 500 (message_body
            ("Could not register '" +:+ apiName body +:+ "'" +:+ newline +:+ error)) /\
        exists service,
          services registry !! apiName body = Some service /\
          services (snd (router.register body (Some error) registry)) !! apiName body
          = Some (set_instances service
                    (instances service ++ [set_url body (router.derive_url body)]))) /\
  (forall registrationInfo : Instance,
      snd (router.unregister registrationInfo (Some error) registry)
      = snd (router.unregister registrationInfo None registry) /\
      forall ok,
        fst (router.unregister registrationInfo None registry) = Responded 201 ok ->
        fst (router.unregister registrationInfo (Some error) registry) =
          Responded 500 (message_body
            ("Could not unregister '" +:+ apiName registrationInfo +:+ "'"
             +:+ newline +:+ error)) /\
        exists service service',
          services registry !! apiName registrationInfo = Some service /\
          services (snd (router.unregister registrationInfo (Some error) registry))
            !! apiName registrationInfo = Some service' /\
          S (length (instances service')) = length (instances service)) /\
  (forall (name : string) (requestBody : EnableBody),
      snd (router.enableOrDisable name requestBody (Some error) registry)
      = snd (router.enableOrDisable name requestBody None registry) /\
      forall ok,
        fst (router.enableOrDisable name requestBody None registry) = Responded 200 ok ->
        fst (router.enableOrDisable name requestBody (Some error) registry) =
          Responded 500 (message_body
            ("Could not enable/disable '" +:+ show (body_url requestBody)
             +:+ "' for service '" +:+ name +:+ "'" +:+ newline +:+ error)) /\
        exists service pre instance post,
          services registry !! name = Some service /\
          instances service = pre ++ instance :: post /\
          url instance = body_url requestBody /\
          services (snd (router.enableOrDisable name requestBody (Some error) registry))
            !! name
          = Some (set_instances service
                    (pre ++ set_enabled instance (body_enabled requestBody) :: post))).
Proof.
  split; [| split].
  - intros body. destruct (services registry !! apiName body) as [service |] eqn:Hlook.
    + rewrite !(register_known body _ registry service Hlook).
      destruct (existsb _ _); cbn; (split; [done |]); intros ok Hok; [done |].
      split; [done |]. exists service. split; [done |]. apply lookup_insert_eq.
    + unfold router.register, router.apiAlreadyExists. cbn [set_url apiName].
      rewrite Hlook. by split.
  - intros info. destruct (services registry !! apiName info) as [service |] eqn:Hlook.
    + rewrite !(unregister_known info _ registry service Hlook).
      destruct (existsb _ _) eqn:Hex; cbn; (split; [done |]); intros ok Hok; [| done].
      split; [done |]. exists service. eexists. split; [done |].
      split; [apply lookup_insert_eq |]. cbn [set_instances instances].
      destruct (findIndex_first _ _ Hex) as (pre & x & post & Hl & _ & _ & _ & Hsp).
      rewrite Hsp, Hl, !length_app. cbn [length]. lia.
    + unfold router.unregister, router.apiAlreadyExists. rewrite Hlook. by split.
  - intros name requestBody.
    destruct (services registry !! name) as [service |] eqn:Hlook.
    + destruct (enableOrDisable_known_service name requestBody (Some error)
                  registry service Hlook) as [_ Hyes].
      pose proof (enableOrDisable_known name requestBody (Some error)
                    registry service Hlook) as HE.
      pose proof (enableOrDisable_known name requestBody None
                    registry service Hlook) as HN.
      destruct (existsb _ _) eqn:Hex.
      * split; [by rewrite HE, HN |]. intros ok Hok. split; [by rewrite HE |].
        destruct Hyes as (pre & x & post & Hl & Hu & _ & Hsnd & _);
          [by apply existsb_url_elem_of |].
        exists service, pre, x, post. repeat split; [done | done |].
        rewrite Hsnd. apply lookup_insert_eq.
      * split; [by rewrite HE, HN |]. intros ok Hok. by rewrite HN in Hok.
    + unfold router.enableOrDisable. rewrite Hlook. by split.
Qed.

(** ** The cursor across operations *)

Lemma carries_refl (P Q : Service -> Prop) (registry : Registry) :
  (forall service, P service -> Q service) -> carries P Q registry registry.
Proof. intros HPQ name service Hlook. eauto. Qed.

Lemma carries_set_service (P Q : Service -> Prop) (registry : Registry)
    (name : string) (service service1 : Service) :
  services registry !! name = Some service ->
  (forall other, P other -> Q other) ->
  (P service -> Q service1) ->
  carries P Q registry (set_service registry name service1).
Proof.
  intros Hlook HPQ Hstep other service' Hlook'.
  destruct (decide (name = other)) as [<- | Hne].
  - rewrite lookup_set_service in Hlook'. injection Hlook' as <-. eauto.
  - rewrite lookup_set_service_ne in Hlook' by done. eauto.
Qed.

(** Where a selection leaves the cursor, whether it returns or throws. *)
Lemma ROUND_ROBIN_cursor (service : Service) :
  exists c,
    snd (loadbalancer.ROUND_ROBIN service) = set_index service c /\
    (0 <= index service -> 0 <= c) /\
    (instances service <> [] -> -1 <= index service ->
     0 <= c < len (instances service)).
Proof.
  assert (instances service <> [] -> 0 < len (instances service)) as Hpos.
  { unfold len. destruct (instances service); [done | cbn; lia]. }
  destruct (loadbalancer.some_enabled (instances service)) eqn:Hsome.
  - destruct (Z.lt_ge_cases (index service) (-1)) as [Hc | Hc].
    + exists (index service + 1). split; [| lia].
      unfold loadbalancer.ROUND_ROBIN. by rewrite ROUND_ROBIN_fuel_negative.
    + destruct (ROUND_ROBIN_returns service Hsome Hc) as (k & Hk & _ & Hen & Hfuel).
      eexists. split.
      * by rewrite (ROUND_ROBIN_eq service _
                      (Hfuel (S (length (instances service))) ltac:(lia))).
      * apply enabled_at_range in Hen. lia.
  - exists (loadbalancer.advance service). split.
    + by rewrite ROUND_ROBIN_none_enabled.
    + split.
      * intros Hc. unfold loadbalancer.advance.
        destruct (Z.geb_spec (index service + 1) (len (instances service))); lia.
      * intros Hne Hc. apply advance_range; auto.
Qed.

Lemma splice1_length {A : Type} (l : list A) (start : Z) :
  (length l <= S (length (splice1 l start)))%nat.
Proof.
  unfold splice1. set (i := Z.to_nat _). clearbody i. revert i.
  induction l as [| x l IH]; intros [| i]; simpl; try lia.
  specialize (IH i). simpl in IH. lia.
Qed.

(** C9, as stated, fails: service ["foo"] holds [A] and [B] with the cursor
    on [B]; once [B] is unregistered the list is [[A]], not empty, and the
    cursor is still 1. *)
Lemma unregister_leaves_cursor_past_end :
  cursor_in_list (foo_service 1 [instanceA; instanceB]) /\
  router.unregister instanceB None (foo_registry 1 [instanceA; instanceB]) =
    (Responded 201 (message_body "Successfully unregistered 'foo'"),
     foo_registry 1 [instanceA]) /\
  instances (foo_service 1 [instanceA]) <> [] /\
  ~ cursor_in_list (foo_service 1 [instanceA]).
Proof.
  unfold cursor_in_list, len. cbn [foo_service index instances length].
  repeat split; try reflexivity; try discriminate; lia.
Qed.

(** Each route either leaves the registry as it is or replaces the record
    of one known service; the three registration routes touch the instance
    list only, the proxy route the cursor and the strategy only. *)
Lemma register_shape (body : Instance) (writeError : option string)
    (registry : Registry) :
  snd (router.register body writeError registry) = registry \/
  exists service l',
    services registry !! apiName body = Some service /\
    snd (router.register body writeError registry)
    = set_service registry (apiName body) (set_instances service l') /\
    (length (instances service) <= length l')%nat.
Proof.
  destruct (services registry !! apiName body) as [service |] eqn:Hlook.
  - rewrite (register_known body writeError registry service Hlook).
    destruct (existsb _ _); [by left | right].
    exists service. eexists. split; [done |]. split; [done |].
    rewrite length_app. lia.
  - left. unfold router.register, router.apiAlreadyExists. cbn [set_url apiName].
    by rewrite Hlook.
Qed.

Lemma enableOrDisable_shape (name : string) (requestBody : EnableBody)
    (writeError : option string) (registry : Registry) :
  snd (router.enableOrDisable name requestBody writeError registry) = registry \/
  exists service l',
    services registry !! name = Some service /\
    snd (router.enableOrDisable name requestBody writeError registry)
    = set_service registry name (set_instances service l') /\
    (length (instances service) <= length l')%nat.
Proof.
  destruct (services registry !! name) as [service |] eqn:Hlook.
  - rewrite (enableOrDisable_known name requestBody writeError registry service Hlook).
    destruct (existsb _ _); [right | by left].
    exists service. eexists. split; [done |]. split; [done |].
    by rewrite length_alter.
  - left. unfold router.enableOrDisable. by rewrite Hlook.
Qed.

Lemma unregister_shape (registrationInfo : Instance) (writeError : option string)
    (registry : Registry) :
  snd (router.unregister registrationInfo writeError registry) = registry \/
  exists service l',
    services registry !! apiName registrationInfo = Some service /\
    snd (router.unregister registrationInfo writeError registry)
    = set_service registry (apiName registrationInfo) (set_instances service l') /\
    (length (instances service) <= S (length l'))%nat.
Proof.
  destruct (services registry !! apiName registrationInfo) as [service |] eqn:Hlook.
  - rewrite (unregister_known registrationInfo writeError registry service Hlook).
    destruct (existsb _ _); [right | by left].
    exists service. eexists. split; [done |]. split; [done |].
    apply splice1_length.
  - left. unfold router.unregister, router.apiAlreadyExists. by rewrite Hlook.
Qed.

Lemma forward_shape axios (req : Request) (writeError : option string)
    (registry : Registry) :
  snd (router.forward axios req writeError registry) = registry \/
  exists service strategy c,
    services registry !! req_apiName req = Some service /\
    snd (router.forward axios req writeError registry)
    = set_service registry (req_apiName req)
        (set_index (set_loadBalanceStrategy service strategy) c) /\
    (0 <= index service -> 0 <= c) /\
    (cursor_in_list service -> 0 <= c < len (instances service)).
Proof.
  unfold router.forward.
  destruct (services registry !! req_apiName req) as [service |] eqn:Hlook;
    [right | left; by destruct (router.inherited _)].
  set (strategy := router.strategy_or_default service).
  set (service0 := set_loadBalanceStrategy service strategy).
  exists service, strategy.
  assert (exists c,
            snd (router.select strategy service0) = set_index service0 c /\
            (0 <= index service -> 0 <= c) /\
            (cursor_in_list service -> 0 <= c < len (instances service)))
    as (c & Hsnd & Hnn & Hin).
  { unfold router.select. destruct (String.eqb strategy "ROUND_ROBIN").
    - destruct (ROUND_ROBIN_cursor service0) as (c & Hsnd & Hnn & Hin).
      exists c. split; [done |]. split; [done |].
      unfold cursor_in_list. intros Hc. apply Hin; cbn; [| lia].
      intros Hnil. rewrite Hnil in Hc. unfold len in Hc. cbn in Hc. lia.
    - exists (index service). split; [done |]. unfold cursor_in_list. auto. }
  exists c. split; [done |]. split; [| done].
  destruct (router.select strategy service0) as [selected service''].
  cbn [snd] in Hsnd. subst service''.
  destruct selected as [newIndex | e]; [| done].
  destruct (at_index _ newIndex); [| done].
  by destruct (router.default_write_fails _ _).
Qed.

(** C9 (amended): a cursor that is a position of the list stays one under
    register, enable/disable and the proxy route, and a selection puts any
    cursor from [-1] up on a position of a non-empty list.  Unregister leaves
    the cursor where it was while the list loses an instance: afterwards the
    cursor is only known to be at most the length of the list.  Every
    operation keeps a non-negative cursor non-negative. *)
Theorem cursor_across_operations (registry : Registry) :
  (forall body writeError,
      carries cursor_in_list cursor_in_list registry
        (snd (router.register body writeError registry))) /\
  (forall name requestBody writeError,
      carries cursor_in_list cursor_in_list registry
        (snd (router.enableOrDisable name requestBody writeError registry))) /\
  (forall axios req writeError,
      carries cursor_in_list cursor_in_list registry
        (snd (router.forward axios req writeError registry))) /\
  (forall service,
      instances service <> [] -> -1 <= index service ->
      cursor_in_list (snd (loadbalancer.ROUND_ROBIN service))) /\
  (forall registrationInfo writeError,
      carries cursor_in_list
        (fun service' => 0 <= index service' <= len (instances service'))
        registry (snd (router.unregister registrationInfo writeError registry))) /\
  (forall body registrationInfo name requestBody writeError axios req,
      carries cursor_nonneg cursor_nonneg registry
        (snd (router.register body writeError registry)) /\
      carries cursor_nonneg cursor_nonneg registry
        (snd (router.unregister registrationInfo writeError registry)) /\
      carries cursor_nonneg cursor_nonneg registry
        (snd (router.enableOrDisable name requestBody writeError registry)) /\
      carries cursor_nonneg cursor_nonneg registry
        (snd (router.forward axios req writeError registry))).
Proof.
  assert (forall service l', (length (instances service) <= length l')%nat ->
            cursor_in_list service -> cursor_in_list (set_instances service l'))
    as Hgrow.
  { unfold cursor_in_list, len. cbn. lia. }
  split; [| split; [| split; [| split; [| split]]]].
  - intros body writeError.
    destruct (register_shape body writeError registry)
      as [-> | (service & l' & Hlook & -> & Hlen)]; [by apply carries_refl |].
    eapply carries_set_service; eauto.
  - intros name requestBody writeError.
    destruct (enableOrDisable_shape name requestBody writeError registry)
      as [-> | (service & l' & Hlook & -> & Hlen)]; [by apply carries_refl |].
    eapply carries_set_service; eauto.
  - intros axios req writeError.
    destruct (forward_shape axios req writeError registry)
      as [-> | (service & strategy & c & Hlook & -> & _ & Hin)];
      [by apply carries_refl |].
    eapply carries_set_service; eauto.
  - intros service Hne Hc.
    destruct (ROUND_ROBIN_cursor service) as (c & -> & _ & Hin).
    apply Hin; done.
  - intros registrationInfo writeError.
    destruct (unregister_shape registrationInfo writeError registry)
      as [-> | (service & l' & Hlook & -> & Hlen)].
    + apply carries_refl. unfold cursor_in_list. lia.
    + eapply carries_set_service; eauto.
      * unfold cursor_in_list. lia.
      * unfold cursor_in_list, len. cbn. lia.
  - intros body registrationInfo name requestBody writeError axios req.
    split; [| split; [| split]].
    + destruct (register_shape body writeError registry)
        as [-> | (service & l' & Hlook & -> & Hlen)]; [by apply carries_refl |].
      eapply carries_set_service; eauto.
    + destruct (unregister_shape registrationInfo writeError registry)
        as [-> | (service & l' & Hlook & -> & Hlen)]; [by apply carries_refl |].
      eapply carries_set_service; eauto.
    + destruct (enableOrDisable_shape name requestBody writeError registry)
        as [-> | (service & l' & Hlook & -> & Hlen)]; [by apply carries_refl |].
      eapply carries_set_service; eauto.
    + destruct (forward_shape axios req writeError registry)
        as [-> | (service & strategy & c & Hlook & -> & Hnn & _)];
        [by apply carries_refl |].
      eapply carries_set_service; eauto.
Qed.

Lemma cursor_across_operations_witness :
  cursor_in_list (snd (loadbalancer.ROUND_ROBIN shrunk_service)) /\
  carries cursor_in_list
    (fun service' => 0 <= index service' <= len (instances service'))
    (foo_registry 1 [instanceA; instanceB])
    (snd (router.unregister instanceB None (foo_registry 1 [instanceA; instanceB]))).
Proof.
  split.
  - refine (proj1 (proj2 (proj2 (proj2
              (cursor_across_operations (foo_registry 1 [instanceA; instanceB])))))
              shrunk_service _ _).
    + discriminate.
    + unfold shrunk_service, foo_service. simpl. lia.
  - apply (cursor_across_operations (foo_registry 1 [instanceA; instanceB])).
Defined.

Lemma persist_failure_keeps_mutation_witness :
  fst (router.register (foo_body "h2" "2") (Some "EACCES") (foo_registry 0 [instanceA])) =
    Responded 500 (message_body
      ("Could not register '" +:+ apiName (foo_body "h2" "2") +:+ "'"
       +:+ newline +:+ "EACCES")) /\
  snd (router.register (foo_body "h2" "2") (Some "EACCES") (foo_registry 0 [instanceA])) =
    snd (router.register (foo_body "h2" "2") None (foo_registry 0 [instanceA])) /\
  snd (router.register (foo_body "h2" "2") None (foo_registry 0 [instanceA])) =
    foo_registry 0 [instanceA; set_url (foo_body "h2" "2") "http://h2:2/"].
Proof.
  destruct (persist_failure_keeps_mutation (foo_registry 0 [instanceA]) "EACCES")
    as (Hregister & _ & _).
  destruct (Hregister (foo_body "h2" "2")) as [Hstate Hresponse].
  destruct (Hresponse (message_body "Successfully registered 'foo'") eq_refl)
    as [H500 _].
  split; [exact H500 |]. split; [exact Hstate | reflexivity].
Defined.

(** * Further properties of the gateway *)

(** ** How a selection ends *)

Lemma ROUND_ROBIN_negative (service : Service) :
  loadbalancer.some_enabled (instances service) = true ->
  index service < -1 ->
  loadbalancer.ROUND_ROBIN service =
    (Throw (TypeError "Cannot read properties of undefined (reading 'enabled')"),
     set_index service (index service + 1)).
Proof. intros Hsome Hc. by apply ROUND_ROBIN_eq, ROUND_ROBIN_fuel_negative. Qed.

Lemma ROUND_ROBIN_Return (service : Service) :
  loadbalancer.some_enabled (instances service) = true ->
  -1 <= index service ->
  exists i,
    loadbalancer.ROUND_ROBIN service = (Return i, set_index service i) /\
    enabled_at service i = true.
Proof.
  intros Hsome Hc.
  destruct (ROUND_ROBIN_returns service Hsome Hc) as (k & _ & _ & Hen & Hfuel).
  eexists. split; [| exact Hen].
  apply ROUND_ROBIN_eq, Hfuel. lia.
Qed.

(** X1: the mutual recursion of [ROUND_ROBIN] and [isEnabled] always comes
    back within one nested call per instance (one call for an empty list),
    and it ends in exactly one of three ways: the error 'No enabled instances
    available' when no instance is enabled; a [TypeError] from reading
    [instances[index].enabled] when some instance is enabled but the cursor
    is below [-1]; an index otherwise. *)
Theorem ROUND_ROBIN_comes_back (service : Service) (fuel : nat) :
  (length (instances service) < fuel)%nat ->
  loadbalancer.ROUND_ROBIN_fuel fuel service = Some (loadbalancer.ROUND_ROBIN service) /\
  (fst (loadbalancer.ROUND_ROBIN service) = Throw (Error "No enabled instances available")
   <-> loadbalancer.some_enabled (instances service) = false) /\
  (fst (loadbalancer.ROUND_ROBIN service)
   = Throw (TypeError "Cannot read properties of undefined (reading 'enabled')")
   <-> loadbalancer.some_enabled (instances service) = true /\ index service < -1) /\
  ((exists i, fst (loadbalancer.ROUND_ROBIN service) = Return i)
   <-> loadbalancer.some_enabled (instances service) = true /\ -1 <= index service).
Proof.
  intros Hfuel. split; [by apply ROUND_ROBIN_fuel_enough |].
  destruct (loadbalancer.some_enabled (instances service)) eqn:Hsome.
  - destruct (Z.lt_ge_cases (index service) (-1)) as [Hc | Hc].
    + rewrite ROUND_ROBIN_negative by done. cbn [fst].
      split; [split; discriminate |]. split; [by split |].
      split; [intros [i Hi]; discriminate | intros [_ ?]; lia].
    + destruct (ROUND_ROBIN_Return service Hsome Hc) as (i & -> & _). cbn [fst].
      split; [split; discriminate |].
      split; [split; [discriminate | intros [_ ?]; lia] |].
      split; [done | intros _; by exists i].
  - rewrite ROUND_ROBIN_none_enabled by done. cbn [fst].
    split; [by split |].
    split; [split; [discriminate | by intros [? _]] |].
    split; [intros [i Hi]; discriminate | by intros [? _]].
Qed.

Lemma ROUND_ROBIN_comes_back_witness :
  loadbalancer.ROUND_ROBIN_fuel 4 lap_service = Some (loadbalancer.ROUND_ROBIN lap_service) /\
  loadbalancer.ROUND_ROBIN (foo_service (-3) [instanceA]) =
    (Throw (TypeError "Cannot read properties of undefined (reading 'enabled')"),
     foo_service (-2) [instanceA]).
Proof.
  split; [| reflexivity].
  apply (ROUND_ROBIN_comes_back lap_service 4). unfold lap_service. simpl. lia.
Defined.

(** ** Fairness among the enabled instances *)

Lemma walk_order_NoDup (service : Service) : NoDup (walk_order service).
Proof.
  unfold walk_order. apply NoDup_fmap_2_strong; [| apply NoDup_seq].
  intros a b Ha%elem_of_seq Hb%elem_of_seq Heq.
  apply Nat2Z.inj.
  apply (mod_offset_inj (len (instances service)) (loadbalancer.advance service));
    [unfold len; lia .. | done].
Qed.

Lemma walk_order_elem (service : Service) (i : Z) :
  i ∈ walk_order service <-> 0 <= i < len (instances service).
Proof.
  unfold walk_order. rewrite list_elem_of_fmap.
  set (n := len (instances service)). set (s := loadbalancer.advance service).
  split.
  - intros (j & -> & Hj%elem_of_seq). apply Z.mod_pos_bound. subst n. unfold len. lia.
  - intros Hi. exists (Z.to_nat ((i - s) mod n)).
    assert (0 <= (i - s) mod n < n) as Hm by (apply Z.mod_pos_bound; lia).
    split.
    + rewrite Z2Nat.id by lia. rewrite Zplus_mod_idemp_r.
      replace (s + (i - s)) with i by lia. by rewrite Z.mod_small.
    + apply elem_of_seq. subst n. unfold len in *. lia.
Qed.

Lemma cycle_NoDup (service : Service) : NoDup (cycle service).
Proof. apply NoDup_filter, walk_order_NoDup. Qed.

Lemma cycle_elem (service : Service) (i : Z) :
  i ∈ cycle service <-> enabled_at service i = true.
Proof.
  unfold cycle. rewrite list_elem_of_filter, walk_order_elem.
  split; [tauto |]. intros Hen. split; [done |]. by apply enabled_at_range.
Qed.

Lemma filter_disabled (service : Service) (f : nat -> Z) (k : nat) :
  (forall j : nat, (j < k)%nat -> enabled_at service (f j) = false) ->
  filter (fun i => enabled_at service i = true) (f <$> seq 0 k) = [].
Proof.
  induction k as [| k IH]; intros Hdis; [done |].
  rewrite seq_S, fmap_app, filter_app, IH by (intros j Hj; apply Hdis; lia).
  cbn [fmap list_fmap app Nat.add]. rewrite filter_cons_False; [done |].
  rewrite (Hdis k) by lia. discriminate.
Qed.

(** Probing from the position after [(s + k) mod n] is probing from [s] with
    the first [k + 1] probes moved to the end. *)
Lemma walk_rotate (s : Z) (N k : nat) :
  (k < N)%nat ->
  let n := Z.of_nat N in
  (fun j : nat => (((s + Z.of_nat k) mod n + 1) mod n + Z.of_nat j) mod n) <$> seq 0 N
  = ((fun j : nat => (s + Z.of_nat j) mod n) <$> seq (S k) (N - S k))
    ++ ((fun j : nat => (s + Z.of_nat j) mod n) <$> seq 0 (S k)).
Proof.
  intros Hk n.
  assert (forall j : Z, (((s + Z.of_nat k) mod n + 1) mod n + j) mod n
                        = (s + (Z.of_nat k + 1 + j)) mod n) as Hg.
  { intros j. rewrite Zplus_mod_idemp_l.
    replace ((s + Z.of_nat k) mod n + 1 + j) with ((s + Z.of_nat k) mod n + (1 + j)) by lia.
    rewrite Zplus_mod_idemp_l. f_equal. lia. }
  replace N with ((N - S k) + S k)%nat at 1 by lia.
  rewrite seq_app, fmap_app. f_equal.
  - replace (seq (S k) (N - S k)) with (Nat.add (S k) <$> seq 0 (N - S k))
      by (rewrite fmap_add_seq; f_equal; lia).
    rewrite <- list_fmap_compose.
    apply list_fmap_ext. intros _ j _. cbn [compose]. rewrite Hg. f_equal. lia.
  - replace (seq (0 + (N - S k)) (S k)) with (Nat.add (N - S k) <$> seq 0 (S k))
      by (rewrite fmap_add_seq; f_equal; lia).
    rewrite <- list_fmap_compose.
    apply list_fmap_ext. intros _ j _. cbn [compose]. rewrite Hg.
    replace (s + (Z.of_nat k + 1 + Z.of_nat (N - S k + j)))
      with (s + Z.of_nat j + 1 * n) by (subst n; lia).
    by rewrite Z_mod_plus_full.
Qed.

(** A selection returns the head of the cycle and moves it to the end. *)
Lemma ROUND_ROBIN_cycle (service : Service) :
  loadbalancer.some_enabled (instances service) = true ->
  -1 <= index service ->
  exists r rest,
    cycle service = r :: rest /\
    loadbalancer.ROUND_ROBIN service = (Return r, set_index service r) /\
    cycle (set_index service r) = rest ++ [r].
Proof.
  intros Hsome Hc.
  destruct (ROUND_ROBIN_returns service Hsome Hc) as (k & Hk & Hdis & Hen & Hfuel).
  set (s := loadbalancer.advance service) in *.
  set (n := len (instances service)) in *.
  set (N := length (instances service)) in *.
  set (f := fun j : nat => (s + Z.of_nat j) mod n).
  exists (f k), (filter (fun i => enabled_at service i = true) (f <$> seq (S k) (N - S k))).
  assert (filter (fun i => enabled_at service i = true) (f <$> seq 0 (S k)) = [f k])
    as Hhead.
  { rewrite seq_S, fmap_app, filter_app, (filter_disabled service f k) by done.
    cbn [fmap list_fmap app Nat.add]. by rewrite filter_cons_True. }
  split; [| split].
  - unfold cycle, walk_order. fold s n N f.
    replace N with (S k + (N - S k))%nat at 1 by lia.
    by rewrite seq_app, fmap_app, filter_app, Hhead.
  - apply ROUND_ROBIN_eq, Hfuel. lia.
  - pose proof (enabled_at_range _ _ Hen) as Hr.
    unfold cycle, walk_order. cbn [set_index instances].
    rewrite (advance_set_index service (f k) Hr).
    change (fun i => enabled_at (set_index service (f k)) i = true)
      with (fun i => enabled_at service i = true).
    pose proof (walk_rotate s N k Hk) as Hrot. cbn zeta in Hrot.
    subst f n N s. unfold len in *. cbn beta in *.
    rewrite Hrot, filter_app. f_equal. exact Hhead.
Qed.

Lemma select_n_cycle (first : list Z) :
  forall (service : Service) (rest : list Z),
    -1 <= index service ->
    cycle service = first ++ rest ->
    fst (select_n (length first) service) = Return <$> first /\
    cycle (snd (select_n (length first) service)) = rest ++ first /\
    instances (snd (select_n (length first) service)) = instances service.
Proof.
  induction first as [| r first IH]; intros service rest Hc Hcycle.
  { cbn. by rewrite app_nil_r. }
  assert (loadbalancer.some_enabled (instances service) = true) as Hsome.
  { apply (enabled_at_some_enabled service r), cycle_elem.
    rewrite Hcycle. left. }
  destruct (ROUND_ROBIN_cycle service Hsome Hc) as (r' & rest' & Hhead & Hrun & Hnext).
  rewrite Hcycle in Hhead. injection Hhead as <- <-.
  cbn [length select_n]. rewrite Hrun.
  destruct (IH (set_index service r) (rest ++ [r])) as (Hres & Hcyc & Hinst).
  - cbn. assert (enabled_at service r = true) as Hr.
    { apply cycle_elem. rewrite Hcycle. left. }
    apply enabled_at_range in Hr. lia.
  - by rewrite Hnext, <- app_assoc.
  - destruct (select_n (length first) (set_index service r)) as [rs service'].
    cbn [fst snd] in *. split; [by rewrite Hres |].
    split; [by rewrite Hcyc, <- app_assoc | done].
Qed.

(** X2: on any service whose cursor is not below [-1], as many selections in
    a row as there are enabled instances return every enabled position
    exactly once and no other index, disabled instances being skipped; after
    them the same order starts again. *)
Theorem select_n_visits_enabled_once (service : Service) :
  -1 <= index service ->
  fst (select_n (length (cycle service)) service) = Return <$> cycle service /\
  NoDup (cycle service) /\
  (forall i : Z, i ∈ cycle service <-> enabled_at service i = true) /\
  cycle (snd (select_n (length (cycle service)) service)) = cycle service.
Proof.
  intros Hc.
  destruct (select_n_cycle (cycle service) service [] Hc) as (Hres & Hcyc & _).
  { by rewrite app_nil_r. }
  split; [done |]. split; [apply cycle_NoDup |]. split; [apply cycle_elem | done].
Qed.

Lemma select_n_visits_enabled_once_witness :
  fst (select_n 2 (foo_service 1 [instanceA; instanceB_off; instanceC])) =
    [Return 2; Return 0] /\
  fst (select_n (length (cycle lap_service)) lap_service) = Return <$> cycle lap_service /\
  NoDup (cycle lap_service) /\
  (forall i : Z, i ∈ cycle lap_service <-> enabled_at lap_service i = true) /\
  cycle (snd (select_n (length (cycle lap_service)) lap_service)) = cycle lap_service.
Proof.
  split; [reflexivity |].
  apply (select_n_visits_enabled_once lap_service).
  unfold lap_service. simpl. lia.
Defined.

(** ** Registering, enabling, unregistering: how the routes compose *)

Lemma set_service_id (registry : Registry) (name : string) (service : Service) :
  services registry !! name = Some service ->
  set_service registry name service = registry.
Proof.
  intros Hlook. destruct registry as [m]. unfold set_service. cbn in *.
  f_equal. by apply insert_id.
Qed.

Lemma set_service_twice (registry : Registry) (name : string) (s1 s2 : Service) :
  set_service (set_service registry name s1) name s2 = set_service registry name s2.
Proof. unfold set_service. cbn. f_equal. apply insert_insert_eq. Qed.

Lemma set_instances_id (service : Service) :
  set_instances service (instances service) = service.
Proof. by destruct service. Qed.

Lemma findIndex_app_last {A : Type} (p : A -> bool) (l : list A) (x : A) :
  Forall (fun y => p y = false) l -> p x = true ->
  findIndex p (l ++ [x]) = len l.
Proof.
  intros Hl Hx. unfold len. induction Hl as [| y l Hy Hl IH]; cbn [app findIndex].
  - by rewrite Hx.
  - rewrite Hy, IH. cbn [length].
    destruct (Z.eqb_spec (Z.of_nat (length l)) (-1)); lia.
Qed.

Lemma splice1_last {A : Type} (l : list A) (x : A) :
  splice1 (l ++ [x]) (len l) = l.
Proof.
  unfold splice1, len. rewrite length_app. cbn [length].
  destruct (Z.ltb_spec (Z.of_nat (length l)) 0); [lia |].
  rewrite Z.min_l by lia. rewrite Nat2Z.id, delete_middle. apply app_nil_r.
Qed.

Lemma fresh_url_no_match (u : option string) (l : list Instance) :
  u ∉ url <$> l -> Forall (fun instance => url_eq (url instance) u = false) l.
Proof.
  intros Hnot. apply Forall_forall. intros y Hy.
  destruct (url_eq (url y) u) eqn:E; [| done].
  apply url_eq_true in E. exfalso. apply Hnot. rewrite <- E.
  apply list_elem_of_fmap. eauto.
Qed.

(** What a registration with a new url leaves behind. *)
Lemma register_fresh (body : Instance) (writeError : option string)
    (registry : Registry) (service : Service) :
  services registry !! apiName body = Some service ->
  Some (router.derive_url body) ∉ url <$> instances service ->
  snd (router.register body writeError registry) =
    set_service registry (apiName body)
      (set_instances service
         (instances service ++ [set_url body (router.derive_url body)])).
Proof.
  intros Hlook Hfresh. rewrite (register_known body writeError registry service Hlook).
  destruct (existsb _ _) eqn:Hex; [| done].
  by apply existsb_url_elem_of in Hex.
Qed.

Lemma ROUND_ROBIN_Return_enabled (service service' : Service) (i : Z) :
  loadbalancer.ROUND_ROBIN service = (Return i, service') ->
  enabled_at service i = true /\ service' = set_index service i.
Proof.
  intros Hrun.
  destruct (loadbalancer.some_enabled (instances service)) eqn:Hsome.
  - destruct (Z.lt_ge_cases (index service) (-1)) as [Hc | Hc].
    + rewrite ROUND_ROBIN_negative in Hrun by done. discriminate.
    + destruct (ROUND_ROBIN_Return service Hsome Hc) as (j & Hj & Hen).
      rewrite Hj in Hrun. by injection Hrun as <- <-.
  - rewrite ROUND_ROBIN_none_enabled in Hrun by done. discriminate.
Qed.

(** X3: registering an instance under a new url and then unregistering it by
    that url gives back the registry as it was, whatever became of the two
    writes; with both writes succeeding the calls are answered 200 and
    201. *)
Theorem register_unregister_round_trip (body : Instance)
    (writeError1 writeError2 : option string) (registry : Registry)
    (service : Service) :
  services registry !! apiName body = Some service ->
  Some (router.derive_url body) ∉ url <$> instances service ->
  snd (router.unregister (set_url body (router.derive_url body)) writeError2
         (snd (router.register body writeError1 registry))) = registry /\
  fst (router.register body None registry) =
    Responded 200 (message_body ("Successfully registered '" +:+ apiName body +:+ "'")) /\
  fst (router.unregister (set_url body (router.derive_url body)) None
         (snd (router.register body writeError1 registry))) =
    Responded 201 (message_body ("Successfully unregistered '" +:+ apiName body +:+ "'")).
Proof.
  intros Hlook Hfresh.
  set (x := set_url body (router.derive_url body)).
  set (service1 := set_instances service (instances service ++ [x])).
  pose proof (fresh_url_no_match _ _ Hfresh) as Hno.
  assert (url_eq (url x) (url x) = true) as Hx by by apply url_eq_true.
  assert (forall w, router.unregister x w
                      (snd (router.register body writeError1 registry))
                    = (router.persist w
                         (fun error =>
                            Responded 500 (message_body
                              ("Could not unregister '" +:+ apiName body +:+ "'"
                               +:+ newline +:+ error)))
                         (Responded 201 (message_body
                              ("Successfully unregistered '" +:+ apiName body +:+ "'"))),
                       registry)) as Hun.
  { intros w. rewrite (register_fresh body writeError1 registry service Hlook Hfresh).
    fold x service1.
    rewrite (unregister_known x w _ service1) by apply lookup_set_service.
    cbn [set_instances instances service1 apiName x set_url].
    rewrite existsb_app. cbn [existsb]. fold x. rewrite Hx, orb_true_r. cbn [orb].
    rewrite (findIndex_app_last (fun instance => url_eq (url instance) (url x))
               _ x Hno Hx), splice1_last.
    rewrite set_service_twice. unfold service1. cbn [set_instances index loadBalanceStrategy].
    f_equal. apply set_service_id.
    by rewrite <- (set_instances_id service) in Hlook. }
  rewrite !Hun. split; [done |]. split; [| done].
  rewrite (register_known body None registry service Hlook).
  destruct (existsb _ _) eqn:Hex; [| done].
  by apply existsb_url_elem_of in Hex.
Qed.

Lemma register_unregister_round_trip_witness :
  snd (router.unregister (set_url (foo_body "h2" "2") (router.derive_url (foo_body "h2" "2")))
         (Some "EACCES")
         (snd (router.register (foo_body "h2" "2") None (foo_registry 0 [instanceA]))))
  = foo_registry 0 [instanceA].
Proof.
  refine (proj1 (register_unregister_round_trip (foo_body "h2" "2") None (Some "EACCES")
                   (foo_registry 0 [instanceA]) (foo_service 0 [instanceA]) _ _)).
  - reflexivity.
  - apply (bool_decide_unpack _). vm_compute. exact I.
Defined.

Lemma at_index_app_last {A : Type} (l : list A) (x : A) :
  at_index (l ++ [x]) (len l) = Some x.
Proof.
  apply at_index_Some_iff. unfold len. split; [lia |].
  rewrite Nat2Z.id. by apply list_lookup_middle.
Qed.

Lemma some_enabled_app (l k : list Instance) :
  loadbalancer.some_enabled (l ++ k)
  = loadbalancer.some_enabled l || loadbalancer.some_enabled k.
Proof. unfold loadbalancer.some_enabled. apply existsb_app. Qed.

(** X4: the instance a backend registers from its [app.listen] callback
    carries no [enabled] property, so it joins the list disabled: no
    selection ever returns its position, and if no other instance of the
    service is enabled the proxy route still fails with 'No enabled instances
    available'. *)
Theorem self_registered_instance_waits (name protocol0 host0 port0 : string)
    (writeError : option string) (registry : Registry) (service : Service) :
  services registry !! name = Some service ->
  Some (router.derive_url (self_registration name protocol0 host0 port0))
    ∉ url <$> instances service ->
  exists service1,
    services (snd (router.register (self_registration name protocol0 host0 port0)
                     writeError registry)) !! name = Some service1 /\
    instances service1 =
      instances service
      ++ [set_url (self_registration name protocol0 host0 port0)
            (protocol0 +:+ "://" +:+ host0 +:+ ":" +:+ port0 +:+ "/")] /\
    (forall i service2,
        loadbalancer.ROUND_ROBIN service1 = (Return i, service2) ->
        0 <= i < len (instances service)) /\
    (loadbalancer.some_enabled (instances service) = false ->
     router.strategy_or_default service = "ROUND_ROBIN" ->
     forall axios req writeError2,
       req_apiName req = name ->
       fst (router.forward axios req writeError2
              (snd (router.register (self_registration name protocol0 host0 port0)
                      writeError registry)))
       = Uncaught (Error "No enabled instances available")).
Proof.
  intros Hlook Hfresh.
  set (body := self_registration name protocol0 host0 port0) in *.
  set (x := set_url body (router.derive_url body)).
  rewrite (register_fresh body writeError registry service Hlook Hfresh).
  change (apiName body) with name.
  fold x. set (service1 := set_instances service (instances service ++ [x])).
  exists service1. split; [apply lookup_set_service |]. split; [done |]. split.
  - intros i service2 Hrun.
    apply ROUND_ROBIN_Return_enabled in Hrun as [Hen _].
    pose proof (enabled_at_range _ _ Hen) as Hr.
    cbn [service1 set_instances instances] in Hr. unfold len in Hr |- *.
    rewrite length_app in Hr. cbn [length] in Hr.
    destruct (decide (i = len (instances service))) as [-> | Hne];
      [| unfold len in Hne; lia].
    unfold enabled_at in Hen. cbn [service1 set_instances instances] in Hen.
    by rewrite at_index_app_last in Hen.
  - intros Hnone Hstrat axios req writeError2 Hreq.
    destruct (forward_none_enabled axios req writeError2
                (set_service registry name service1) service1)
      as [registry' Hrun].
    + rewrite Hreq. apply lookup_set_service.
    + done.
    + cbn [service1 set_instances instances]. rewrite some_enabled_app, Hnone. done.
    + by rewrite Hrun.
Qed.

Lemma self_registered_instance_waits_witness :
  fst (router.forward answers_404 get_items None
         (snd (router.register (self_registration "foo" "http" "h2" "2") None
                 (foo_registry 0 [instanceA_off]))))
  = Uncaught (Error "No enabled instances available").
Proof.
  destruct (self_registered_instance_waits "foo" "http" "h2" "2" None
              (foo_registry 0 [instanceA_off]) (foo_service 0 [instanceA_off]))
    as (service1 & _ & _ & _ & Hwait).
  - reflexivity.
  - apply (bool_decide_unpack _). vm_compute. exact I.
  - apply Hwait; reflexivity.
Defined.



(** ** Instances with unique urls *)

Lemma unique_urls_middle (pre post : list Instance) (x y : Instance) :
  NoDup (url <$> (pre ++ x :: post)) -> y ∈ pre ++ post -> url y <> url x.
Proof.
  rewrite fmap_app, fmap_cons. intros Hnd Hy Heq.
  apply NoDup_app in Hnd as (_ & Hpre & Hpost).
  apply NoDup_cons in Hpost as [Hpost _].
  apply elem_of_app in Hy as [Hy | Hy].
  - apply (Hpre (url y)); [by apply list_elem_of_fmap_2 |]. rewrite Heq. left.
  - apply Hpost. rewrite <- Heq. by apply list_elem_of_fmap_2.
Qed.

(** X6: in a service whose instances have distinct urls, once an instance is
    disabled through [/enableOrDisable] (any falsy value, a missing [enabled]
    included) no selection returns an instance with that url; when the url
    matches no instance the call changes nothing and the same holds. *)
Theorem disabled_instance_not_selected (name : string) (requestBody : EnableBody)
    (writeError : option string) (registry : Registry) (service service' : Service) :
  services registry !! name = Some service ->
  unique_urls service ->
  truthy (body_enabled requestBody) = false ->
  services (snd (router.enableOrDisable name requestBody writeError registry)) !! name
    = Some service' ->
  forall i service'' instance,
    loadbalancer.ROUND_ROBIN service' = (Return i, service'') ->
    at_index (instances service') i = Some instance ->
    truthy (enabled instance) = true /\ url instance <> body_url requestBody.
Proof.
  intros Hlook Huniq Hoff Hlook' i service'' instance Hrun Hat.
  apply ROUND_ROBIN_Return_enabled in Hrun as [Hen _].
  unfold enabled_at in Hen. rewrite Hat in Hen. split; [done |].
  apply at_index_range in Hat as [_ Hin].
  destruct (enableOrDisable_known_service name requestBody writeError registry
              service Hlook) as [Hno Hyes].
  destruct (decide (body_url requestBody ∈ url <$> instances service)) as [Hu | Hu].
  - destruct (Hyes Hu) as (pre & x & post & Hl & Hx & _ & Hsnd & _).
    rewrite Hsnd, lookup_set_service in Hlook'. injection Hlook' as <-.
    cbn [set_instances instances] in Hin.
    apply elem_of_app in Hin as [Hin | Hin].
    + rewrite <- Hx. apply (unique_urls_middle pre post); [by rewrite <- Hl |].
      apply elem_of_app. by left.
    + apply elem_of_cons in Hin as [-> | Hin].
      * cbn in Hen. congruence.
      * rewrite <- Hx. apply (unique_urls_middle pre post); [by rewrite <- Hl |].
        apply elem_of_app. by right.
  - rewrite (Hno Hu) in Hlook'. cbn [snd] in Hlook'.
    rewrite Hlook in Hlook'. injection Hlook' as <-.
    intros Heq. apply Hu. rewrite <- Heq. by apply list_elem_of_fmap_2.
Qed.

Lemma disabled_instance_not_selected_witness :
  loadbalancer.ROUND_ROBIN (foo_service 1 [instanceA_off; instanceB])
    = (Return 1, foo_service 1 [instanceA_off; instanceB]) /\
  truthy (enabled instanceB) = true /\
  url instanceB <> body_url {| body_url := Some "http://h1:1/";
                               body_enabled := JBool false |}.
Proof.
  split; [reflexivity |].
  refine (disabled_instance_not_selected "foo"
            {| body_url := Some "http://h1:1/"; body_enabled := JBool false |} None
            (foo_registry 1 [instanceA; instanceB]) (foo_service 1 [instanceA; instanceB])
            (foo_service 1 [instanceA_off; instanceB])
            _ _ _ _
            1 (foo_service 1 [instanceA_off; instanceB]) instanceB _ _).
  - reflexivity.
  - apply (bool_decide_unpack _). vm_compute. exact I.
  - reflexivity.
  - reflexivity.
  - reflexivity.
  - reflexivity.
Defined.

(** The registry an unregister call leaves behind. *)
Lemma unregister_by_body_url_aux (registrationInfo : Instance)
    (writeError : option string) (registry : Registry) (service : Service) :
  services registry !! apiName registrationInfo = Some service ->
  (url registrationInfo ∈ url <$> instances service ->
   exists pre instance post,
     instances service = pre ++ instance :: post /\
     url instance = url registrationInfo /\
     snd (router.unregister registrationInfo writeError registry) =
       set_service registry (apiName registrationInfo)
         (set_instances service (pre ++ post))) /\
  (url registrationInfo ∉ url <$> instances service ->
   snd (router.unregister registrationInfo writeError registry) = registry).
Proof.
  intros Hlook.
  rewrite (unregister_known registrationInfo writeError registry service Hlook).
  split.
  - intros Hin. pose proof Hin as Hex. apply existsb_url_elem_of in Hex.
    rewrite Hex.
    destruct (findIndex_first _ _ Hex) as (pre & x & post & Hl & Hx & _ & _ & Hsp).
    exists pre, x, post. split; [done |]. split; [by apply url_eq_true |].
    cbn [snd]. by rewrite Hsp.
  - intros Hnot. destruct (existsb _ _) eqn:Hex; [| done].
    by apply existsb_url_elem_of in Hex.
Qed.

(** X7: in a service whose instances have distinct urls, after an unregister
    call for a url (whether it removed an instance or found none) an
    enable/disable call for the same url is answered 404 and changes
    nothing. *)
Theorem unregistered_url_not_found (registrationInfo : Instance) (v : json)
    (writeError1 writeError2 : option string) (registry : Registry)
    (service : Service) :
  services registry !! apiName registrationInfo = Some service ->
  unique_urls service ->
  router.enableOrDisable (apiName registrationInfo)
    {| body_url := url registrationInfo; body_enabled := v |} writeError2
    (snd (router.unregister registrationInfo writeError1 registry))
  = (Responded 404
       (JObj [("status", JStr "error");
              ("message", JStr ("Could not find '" +:+ show (url registrationInfo)
                                +:+ "' for service '" +:+ apiName registrationInfo
                                +:+ "'"))]),
     snd (router.unregister registrationInfo writeError1 registry)).
Proof.
  intros Hlook Huniq.
  destruct (unregister_by_body_url_aux registrationInfo writeError1 registry service Hlook)
    as [Hyes Hno].
  destruct (decide (url registrationInfo ∈ url <$> instances service)) as [Hu | Hu].
  - destruct (Hyes Hu) as (pre & x & post & Hl & Hx & Hsnd).
    rewrite Hsnd.
    apply (proj1 (enableOrDisable_known_service (apiName registrationInfo)
                    {| body_url := url registrationInfo; body_enabled := v |}
                    writeError2 _ _ (lookup_set_service _ _ _))).
    cbn [body_url set_instances instances].
    intros (y & Hy & Hin)%list_elem_of_fmap.
    symmetry in Hy. rewrite <- Hx in Hy.
    by apply (unique_urls_middle pre post x y); [rewrite <- Hl |..].
  - rewrite (Hno Hu).
    by apply (proj1 (enableOrDisable_known_service (apiName registrationInfo)
                       {| body_url := url registrationInfo; body_enabled := v |}
                       writeError2 registry service Hlook)).
Qed.

Lemma unregistered_url_not_found_witness :
  router.enableOrDisable (apiName instanceA)
    {| body_url := url instanceA; body_enabled := JBool false |} None
    (snd (router.unregister instanceA None (foo_registry 1 [instanceA; instanceB])))
  = (Responded 404
       (JObj [("status", JStr "error");
              ("message", JStr ("Could not find '" +:+ show (url instanceA)
                                +:+ "' for service '" +:+ apiName instanceA +:+ "'"))]),
     snd (router.unregister instanceA None (foo_registry 1 [instanceA; instanceB]))).
Proof.
  apply (unregistered_url_not_found instanceA (JBool false) None None
           (foo_registry 1 [instanceA; instanceB]) (foo_service 1 [instanceA; instanceB])).
  - reflexivity.
  - apply (bool_decide_unpack _). vm_compute. exact I.
Defined.

Lemma NoDup_remove_middle {A : Type} (l1 l2 : list A) (x : A) :
  NoDup (l1 ++ x :: l2) -> NoDup (l1 ++ l2).
Proof.
  rewrite !NoDup_app, NoDup_cons. intros (H1 & Hdis & _ & H2).
  split; [done |]. split; [| done].
  intros y Hy Hy2. apply (Hdis y Hy). by right.
Qed.

(** X8: every route keeps the urls of a service distinct: register because
    it refuses a url that is already there, the others because they add no
    instance and change no url. *)
Theorem unique_urls_kept (registry : Registry) :
  (forall body writeError,
      carries unique_urls unique_urls registry
        (snd (router.register body writeError registry))) /\
  (forall registrationInfo writeError,
      carries unique_urls unique_urls registry
        (snd (router.unregister registrationInfo writeError registry))) /\
  (forall name requestBody writeError,
      carries unique_urls unique_urls registry
        (snd (router.enableOrDisable name requestBody writeError registry))) /\
  (forall axios req writeError,
      carries unique_urls unique_urls registry
        (snd (router.forward axios req writeError registry))).
Proof.
  split; [| split; [| split]].
  - intros body writeError.
    destruct (services registry !! apiName body) as [service |] eqn:Hlook.
    + rewrite (register_known body writeError registry service Hlook).
      destruct (existsb _ _) eqn:Hex; [by apply carries_refl |].
      eapply carries_set_service; eauto.
      unfold unique_urls. cbn [set_instances instances]. intros Hnd.
      rewrite fmap_app. apply NoDup_app. split; [done |]. split.
      * intros u Hu Hnew. cbn in Hnew. apply list_elem_of_singleton in Hnew. subst u.
        apply existsb_url_elem_of in Hu. congruence.
      * cbn. apply NoDup_singleton.
    + destruct (register_shape body writeError registry)
        as [-> | (service & _ & Hl & _)]; [by apply carries_refl | congruence].
  - intros info writeError.
    destruct (services registry !! apiName info) as [service |] eqn:Hlook.
    + destruct (unregister_by_body_url_aux info writeError registry service Hlook)
        as [Hyes Hno].
      destruct (decide (url info ∈ url <$> instances service)) as [Hu | Hu].
      * destruct (Hyes Hu) as (pre & x & post & Hl & _ & ->).
        eapply carries_set_service; eauto.
        unfold unique_urls. cbn [set_instances instances]. rewrite Hl, !fmap_app, fmap_cons.
        apply NoDup_remove_middle.
      * rewrite (Hno Hu). by apply carries_refl.
    + destruct (unregister_shape info writeError registry)
        as [-> | (service & _ & Hl & _)]; [by apply carries_refl | congruence].
  - intros name requestBody writeError.
    destruct (services registry !! name) as [service |] eqn:Hlook.
    + destruct (enableOrDisable_known_service name requestBody writeError registry
                  service Hlook) as [Hno Hyes].
      destruct (decide (body_url requestBody ∈ url <$> instances service)) as [Hu | Hu].
      * destruct (Hyes Hu) as (pre & x & post & Hl & _ & _ & -> & _).
        eapply carries_set_service; eauto.
        unfold unique_urls. cbn [set_instances instances].
        by rewrite Hl, !fmap_app, !fmap_cons.
      * rewrite (Hno Hu). by apply carries_refl.
    + destruct (enableOrDisable_shape name requestBody writeError registry)
        as [-> | (service & _ & Hl & _)]; [by apply carries_refl | congruence].
  - intros axios req writeError.
    destruct (forward_shape axios req writeError registry)
      as [-> | (service & strategy & c & Hlook & -> & _)]; [by apply carries_refl |].
    eapply carries_set_service; eauto.
Qed.

Lemma unique_urls_kept_witness :
  carries unique_urls unique_urls (foo_registry 0 [instanceA])
    (snd (router.register (foo_body "h1" "1") None (foo_registry 0 [instanceA]))) /\
  unique_urls (foo_service 0 [instanceA]) /\
  snd (router.register (foo_body "h1" "1") None (foo_registry 0 [instanceA]))
  = foo_registry 0 [instanceA].
Proof.
  split; [apply (unique_urls_kept (foo_registry 0 [instanceA])) |].
  split; [| reflexivity]. apply (bool_decide_unpack _). vm_compute. exact I.
Defined.

(** ** What each route leaves alone *)

Lemma related_refl (R : Service -> Service -> Prop) (target : string)
    (registry : Registry) :
  (forall service, R service service) -> related R target registry registry.
Proof. intros HR. split; [done |]. intros name service' Hlook. eauto. Qed.

Lemma related_set_service (R : Service -> Service -> Prop) (registry : Registry)
    (target : string) (service service1 : Service) :
  services registry !! target = Some service ->
  (forall other, R other other) ->
  R service service1 ->
  related R target registry (set_service registry target service1).
Proof.
  intros Hlook HR Hstep. split.
  - intros name. destruct (decide (target = name)) as [<- | Hne].
    + rewrite lookup_set_service, Hlook. split; discriminate.
    + by rewrite lookup_set_service_ne.
  - intros name service' Hlook'. destruct (decide (target = name)) as [<- | Hne].
    + rewrite lookup_set_service in Hlook'. injection Hlook' as <-.
      exists service. split; [done |]. split; [done | congruence].
    + rewrite lookup_set_service_ne in Hlook' by done. eauto.
Qed.

(** X9: no route creates or removes a service name, and each touches at most
    the record it is addressed to.  Register, unregister and enable/disable
    never move the cursor or change the strategy of a record; the proxy route
    never changes an instance list. *)
Theorem routes_frame (registry : Registry) :
  (forall body writeError,
      related same_cursor_and_strategy (apiName body) registry
        (snd (router.register body writeError registry))) /\
  (forall registrationInfo writeError,
      related same_cursor_and_strategy (apiName registrationInfo) registry
        (snd (router.unregister registrationInfo writeError registry))) /\
  (forall name requestBody writeError,
      related same_cursor_and_strategy name registry
        (snd (router.enableOrDisable name requestBody writeError registry))) /\
  (forall axios req writeError,
      related same_instances (req_apiName req) registry
        (snd (router.forward axios req writeError registry))).
Proof.
  assert (forall service, same_cursor_and_strategy service service) as Hrefl by done.
  split; [| split; [| split]].
  - intros body writeError.
    destruct (register_shape body writeError registry)
      as [-> | (service & l' & Hlook & -> & _)]; [by apply related_refl |].
    by apply (related_set_service _ _ _ service).
  - intros info writeError.
    destruct (unregister_shape info writeError registry)
      as [-> | (service & l' & Hlook & -> & _)]; [by apply related_refl |].
    by apply (related_set_service _ _ _ service).
  - intros name requestBody writeError.
    destruct (enableOrDisable_shape name requestBody writeError registry)
      as [-> | (service & l' & Hlook & -> & _)]; [by apply related_refl |].
    by apply (related_set_service _ _ _ service).
  - intros axios req writeError.
    destruct (forward_shape axios req writeError registry)
      as [-> | (service & strategy & c & Hlook & -> & _)]; [by apply related_refl |].
    by apply (related_set_service _ _ _ service).
Qed.

Lemma routes_frame_witness :
  related same_instances (req_apiName get_items) (foo_registry 0 [instanceA; instanceB])
    (snd (router.forward answers_404 get_items None
            (foo_registry 0 [instanceA; instanceB]))) /\
  snd (router.forward answers_404 get_items None (foo_registry 0 [instanceA; instanceB]))
  = foo_registry 1 [instanceA; instanceB].
Proof.
  split; [apply (routes_frame (foo_registry 0 [instanceA; instanceB])) | reflexivity].
Defined.

(** ** Toggling an instance *)

Lemma findIndex_first_match {A : Type} (p : A -> bool) (pre post : list A) (x : A) :
  Forall (fun y => p y = false) pre -> p x = true ->
  findIndex p (pre ++ x :: post) = len pre.
Proof.
  intros Hpre Hx. unfold len. induction Hpre as [| y l Hy Hl IH]; cbn [app findIndex].
  - by rewrite Hx.
  - rewrite Hy, IH. cbn [length].
    destruct (Z.eqb_spec (Z.of_nat (length l)) (-1)); lia.
Qed.

(** Enable/disable on the first instance with the url. *)
Lemma enableOrDisable_first_match (name : string) (requestBody : EnableBody)
    (writeError : option string) (registry : Registry) (service : Service)
    (pre post : list Instance) (x : Instance) :
  services registry !! name = Some service ->
  instances service = pre ++ x :: post ->
  Forall (fun other => url other <> body_url requestBody) pre ->
  url x = body_url requestBody ->
  snd (router.enableOrDisable name requestBody writeError registry) =
    set_service registry name
      (set_instances service
         (pre ++ set_enabled x (body_enabled requestBody) :: post)).
Proof.
  intros Hlook Hl Hpre Hx.
  rewrite (enableOrDisable_known name requestBody writeError registry service Hlook).
  assert (Forall (fun y => url_eq (url y) (body_url requestBody) = false) pre) as Hpre'.
  { eapply Forall_impl; [exact Hpre |]. cbn beta. intros y Hy.
    destruct (url_eq (url y) (body_url requestBody)) eqn:E; [| done].
    by apply url_eq_true in E. }
  assert (url_eq (url x) (body_url requestBody) = true) as Hx' by by apply url_eq_true.
  rewrite Hl, existsb_app. cbn [existsb]. rewrite Hx', orb_true_r. cbn [orb snd].
  rewrite (findIndex_first_match _ pre post x Hpre' Hx').
  unfold len. rewrite Nat2Z.id, alter_app_r_alt by lia. by rewrite Nat.sub_diag.
Qed.

(** X10: an enable/disable call repeated has the effect of the call made
    once; and setting the flag of an instance and then setting it back to the
    value it had gives back the registry as it was. *)
Theorem enableOrDisable_toggle (name : string) (requestBody : EnableBody)
    (writeError1 writeError2 : option string) (registry : Registry) :
  snd (router.enableOrDisable name requestBody writeError2
         (snd (router.enableOrDisable name requestBody writeError1 registry)))
  = snd (router.enableOrDisable name requestBody writeError1 registry) /\
  forall service pre x post,
    services registry !! name = Some service ->
    instances service = pre ++ x :: post ->
    Forall (fun other => url other <> body_url requestBody) pre ->
    url x = body_url requestBody ->
    snd (router.enableOrDisable name
           {| body_url := body_url requestBody; body_enabled := enabled x |}
           writeError2
           (snd (router.enableOrDisable name requestBody writeError1 registry)))
    = registry.
Proof.
  assert (forall service pre x post v,
            services registry !! name = Some service ->
            instances service = pre ++ x :: post ->
            Forall (fun other => url other <> body_url requestBody) pre ->
            url x = body_url requestBody ->
            snd (router.enableOrDisable name
                   {| body_url := body_url requestBody; body_enabled := v |}
                   writeError2
                   (snd (router.enableOrDisable name requestBody writeError1 registry)))
            = set_service registry name
                (set_instances service (pre ++ set_enabled x v :: post))) as Htwice.
  { intros service pre x post v Hlook Hl Hpre Hx.
    rewrite (enableOrDisable_first_match name requestBody writeError1 registry service
               pre post x Hlook Hl Hpre Hx).
    rewrite (enableOrDisable_first_match name
               {| body_url := body_url requestBody; body_enabled := v |} writeError2
               (set_service registry name
                  (set_instances service
                     (pre ++ set_enabled x (body_enabled requestBody) :: post)))
               (set_instances service
                  (pre ++ set_enabled x (body_enabled requestBody) :: post))
               pre post (set_enabled x (body_enabled requestBody))
               (lookup_set_service _ _ _) eq_refl Hpre Hx).
    by rewrite set_service_twice. }
  split.
  - destruct (services registry !! name) as [service |] eqn:Hlook.
    + destruct (enableOrDisable_known_service name requestBody writeError1 registry
                  service Hlook) as [Hno Hyes].
      destruct (decide (body_url requestBody ∈ url <$> instances service)) as [Hu | Hu].
      * destruct (Hyes Hu) as (pre & x & post & Hl & Hx & Hpre & Hsnd & _).
        destruct requestBody as [u v]. cbn [body_url body_enabled] in *.
        by rewrite (Htwice service pre x post v eq_refl Hl Hpre Hx), Hsnd.
      * rewrite (Hno Hu). cbn [snd].
        by rewrite (proj1 (enableOrDisable_known_service name requestBody writeError2
                             registry service Hlook) Hu).
    + unfold router.enableOrDisable. rewrite Hlook. cbn [snd]. by rewrite Hlook.
  - intros service pre x post Hlook Hl Hpre Hx.
    rewrite (Htwice service pre x post (enabled x) Hlook Hl Hpre Hx).
    replace (set_enabled x (enabled x)) with x by by destruct x.
    rewrite <- Hl, set_instances_id. by apply set_service_id.
Qed.

Lemma enableOrDisable_toggle_witness :
  snd (router.enableOrDisable "foo"
         {| body_url := Some "http://h2:2/"; body_enabled := enabled instanceB |} None
         (snd (router.enableOrDisable "foo"
                 {| body_url := Some "http://h2:2/"; body_enabled := JNull |}
                 (Some "EACCES") (foo_registry 0 [instanceA; instanceB]))))
  = foo_registry 0 [instanceA; instanceB].
Proof.
  refine (proj2 (enableOrDisable_toggle "foo"
                   {| body_url := Some "http://h2:2/"; body_enabled := JNull |}
                   (Some "EACCES") None (foo_registry 0 [instanceA; instanceB]))
            (foo_service 0 [instanceA; instanceB]) [instanceA] instanceB [] _ _ _ _).
  - reflexivity.
  - reflexivity.
  - repeat constructor. discriminate.
  - reflexivity.
Defined.

(** ** Gateway faults of the proxy route *)




(** ** The strategy default and the cursor of the proxy route *)







(** ** Traffic after an unregistration *)


